(** * DICdeploy: the Streamlit accident predictor (app.py)

    A shallow embedding of the logic of [app.py]: the two ZIP-code
    functions [is_valid_ny_zipcode] and [get_region], the temporal
    features computed from the date and hour widgets, the handler of the
    predict button and the risk-factor list it renders.

    Conventions.
    - A Python [str] is a Rocq [string]; each [ascii] is one code point
      U+0000..U+00FF, so [String.length] is Python's [len]. Text with
      code points above U+00FF is not represented; the digits among them
      (which [int] reads like ASCII digits) are spoken of as decimal
      digits, see [is_decimal_digit].
    - A Python [int] is a [Z]; [//] and [%] with a positive divisor are
      [Z.div] and [Z.modulo].
    - [int(s)] either returns an integer or raises [ValueError]; it is
      modelled as a function into [option Z], [None] standing for
      [ValueError].
    - Streamlit calls and calls of the pickled model are recorded, in
      program order, in a trace. *)

From Stdlib Require Import ZArith List String Ascii Bool Lia.
Import ListNotations.

Local Open Scope string_scope.
Local Open Scope Z_scope.

(** ** Characters *)

Definition ord (c : ascii) : Z := Z.of_N (N_of_ascii c).

(** [Py_ISSPACE] of CPython's [pyctype.h]: tab, LF, VT, FF, CR, space. *)
Definition Py_ISSPACE (c : ascii) : bool :=
  ((9 <=? ord c) && (ord c <=? 13)) || (ord c =? 32).

(** [Py_UNICODE_ISSPACE] restricted to U+0000..U+00FF. *)
Definition Py_UNICODE_ISSPACE (c : ascii) : bool :=
  ((9 <=? ord c) && (ord c <=? 13)) || ((28 <=? ord c) && (ord c <=? 32))
  || (ord c =? 133) || (ord c =? 160).

Definition is_ascii_digit (c : ascii) : bool :=
  (48 <=? ord c) && (ord c <=? 57).

(** [_PyLong_DigitValue[c] < 10]: the value of an ASCII decimal digit. *)
Definition digit_value (c : ascii) : option Z :=
  if is_ascii_digit c then Some (ord c - 48) else None.

(** [Py_UNICODE_TODECIMAL] restricted to U+0000..U+00FF, where the only
    characters of category Nd are the ASCII digits. *)
Definition Py_UNICODE_TODECIMAL (c : ascii) : option Z := digit_value c.

(** [Py_UNICODE_ISDIGIT] restricted to U+0000..U+00FF: the ASCII digits and
    the superscripts U+00B2, U+00B3, U+00B9. *)
Definition Py_UNICODE_ISDIGIT (c : ascii) : bool :=
  is_ascii_digit c
  || (ord c =? 178) || (ord c =? 179) || (ord c =? 185).

Definition is_underscore (c : ascii) : bool := ord c =? 95.

Fixpoint forall_chars (p : ascii -> bool) (s : string) : bool :=
  match s with
  | EmptyString => true
  | String c r => p c && forall_chars p r
  end.

(** [str.isdigit()]: every character is a digit and there is at least one. *)
Definition isdigit (s : string) : bool :=
  match s with
  | EmptyString => false
  | _ => forall_chars Py_UNICODE_ISDIGIT s
  end.

(** [len(s)]. *)
Definition len (s : string) : Z := Z.of_nat (String.length s).

(** ** [datetime.date]

    [st.date_input] returns a [datetime.date]; the functions below are the
    ones of the standard library's [datetime] module that [weekday] uses. *)

Record date : Type := mk_date { year : Z; month : Z; day : Z }.

Definition _DAYS_IN_MONTH : list Z :=
  [-1; 31; 28; 31; 30; 31; 30; 31; 31; 30; 31; 30; 31].

(** [_DAYS_BEFORE_MONTH], built by the module's loop over
    [_DAYS_IN_MONTH[1:]]. *)
Definition _DAYS_BEFORE_MONTH : list Z :=
  fst (fold_left (fun st dim => ((fst st ++ [snd st])%list, snd st + dim))
                 (tl _DAYS_IN_MONTH) ([-1], 0)).

Definition _is_leap (y : Z) : bool :=
  (y mod 4 =? 0) && (negb (y mod 100 =? 0) || (y mod 400 =? 0)).

Definition _days_before_year (year : Z) : Z :=
  let y := year - 1 in
  y * 365 + y / 4 - y / 100 + y / 400.

(** [_DAYS_BEFORE_MONTH[month] + (month > 2 and _is_leap(year))]; the
    function asserts [1 <= month <= 12], so the index is in range. *)
Definition _days_before_month (year month : Z) : Z :=
  nth (Z.to_nat month) _DAYS_BEFORE_MONTH 0
  + (if (month >? 2) && _is_leap year then 1 else 0).

Definition _ymd2ord (year month day : Z) : Z :=
  _days_before_year year + _days_before_month year month + day.

Definition toordinal (d : date) : Z := _ymd2ord (year d) (month d) (day d).

(** [date.weekday()]. *)
Definition weekday (d : date) : Z := (toordinal d + 6) mod 7.

(** [_days_in_month] and [_check_date_fields] of the [datetime] module:
    the test every [date] object has passed when it was built. *)
Definition _days_in_month (year month : Z) : Z :=
  if (month =? 2) && _is_leap year then 29
  else nth (Z.to_nat month) _DAYS_IN_MONTH 0.

Definition check_date_fields (d : date) : bool :=
  (1 <=? year d) && (year d <=? 9999)
  && (1 <=? month d) && (month d <=? 12)
  && (1 <=? day d) && (day d <=? _days_in_month (year d) (month d)).

(** ** The Gregorian calendar

    The calendar against which [weekday] is checked, written without the
    tables of [datetime]: the leap-year rule, the lengths of the months and
    the day after a given day. *)

Definition gregorian_leap (y : Z) : bool :=
  if y mod 400 =? 0 then true
  else if y mod 100 =? 0 then false
  else y mod 4 =? 0.

Definition month_length (y m : Z) : Z :=
  if m =? 2 then (if gregorian_leap y then 29 else 28)
  else if (m =? 4) || (m =? 6) || (m =? 9) || (m =? 11) then 30
  else 31.

(** A day of the calendar: a month 1..12 and a day of that month. *)
Definition calendar_date (d : date) : Prop :=
  1 <= month d <= 12 /\ 1 <= day d <= month_length (year d) (month d).

(** The day after [d]. *)
Definition next_day (d : date) : date :=
  if day d <? month_length (year d) (month d)
  then mk_date (year d) (month d) (day d + 1)
  else if month d <? 12 then mk_date (year d) (month d + 1) 1
  else mk_date (year d + 1) 1 1.

(** The day [n] days after [d]. *)
Definition days_after (n : nat) (d : date) : date := Nat.iter n next_day d.

(** The day before [d]. *)
Definition prev_day (d : date) : date :=
  if 1 <? day d then mk_date (year d) (month d) (day d - 1)
  else if 1 <? month d
       then mk_date (year d) (month d - 1) (month_length (year d) (month d - 1))
       else mk_date (year d - 1) 12 31.

(** Monday 1 January of year 1, the day with ordinal 1. *)
Definition first_day : date := mk_date 1 1 1.

(** ** The widgets and the temporal features *)

(** The values the widgets of the page return in one run of the script. *)
Record widgets : Type := mk_widgets
  { date_time : date;
    hour : Z;
    vehicle_type : string;
    contributing_factor : string;
    zip_code : string }.

Definition day_of_week (date_time : date) : Z := weekday date_time.

Definition is_rush_hour (hour : Z) : Z :=
  if ((7 <=? hour) && (hour <=? 9)) || ((16 <=? hour) && (hour <=? 19))
  then 1 else 0.

Definition is_weekend (day_of_week : Z) : Z :=
  if day_of_week >=? 5 then 1 else 0.

Definition is_night_time (hour : Z) : Z :=
  if (hour >=? 22) || (hour <=? 5) then 1 else 0.

(** ** The risk factors *)

(** Truth value of an [int] used as a condition. *)
Definition truthy (n : Z) : bool := negb (n =? 0).

Definition rush_hour_note : string := "- Accident occurs during rush hour".
Definition night_time_note : string := "- Accident occurs during night time".
Definition high_risk_note (contributing_factor : string) : string :=
  "- High-risk contributing factor: " ++ contributing_factor.

Definition high_risk_factors : list string :=
  ["driver inattention/distraction"; "unsafe speed"].

(** [x in l] for a list of strings. *)
Definition str_in (x : string) (l : list string) : bool :=
  existsb (String.eqb x) l.

(** [risk_factors.append(x)]. *)
Definition append (l : list string) (x : string) : list string :=
  (l ++ [x])%list.

(** The list [risk_factors] after the three [if] statements. *)
Definition risk_factors (is_rush_hour is_night_time : Z)
  (contributing_factor : string) : list string :=
  let risk_factors := [] in
  let risk_factors :=
    if truthy is_rush_hour then append risk_factors rush_hour_note
    else risk_factors in
  let risk_factors :=
    if truthy is_night_time then append risk_factors night_time_note
    else risk_factors in
  let risk_factors :=
    if str_in contributing_factor high_risk_factors
    then append risk_factors (high_risk_note contributing_factor)
    else risk_factors in
  risk_factors.

Definition newline : string := String (ascii_of_nat 10) EmptyString.

Definition no_risk_message : string :=
  "No significant risk factors identified.".

(** The argument of the [st.markdown] call that ends the [try] block. *)
Definition risk_factors_markdown (risk_factors : list string) : string :=
  match risk_factors with
  | [] => no_risk_message
  | _ :: _ => String.concat newline risk_factors
  end.

(** ** The input frame and the calls of a run *)

(** The one-row frame built by [pd.DataFrame({...})], column by column. *)
Record DataFrame : Type := mk_DataFrame
  { Month : Z;
    Day : Z;
    Hour : Z;
    DayOfWeek : Z;
    VEHICLE_TYPE_CODE_2 : string;
    ZIP_CODE : Z;
    CONTRIBUTING_FACTOR_VEHICLE_1 : string;
    IsRushHour : Z;
    IsWeekend : Z;
    IsNightTime : Z }.

(** The calls of Streamlit functions and of the model's methods that a run
    of the script makes. The [with res_col1:] blocks only place a widget
    and are not recorded. *)
Inductive call : Type :=
| st_warning (body : string)
| st_error (body : string)
| st_success (body : string)
| st_header (body : string)
| st_columns (spec : Z)
| st_metric (label value : string)
| st_markdown (body : string)
| model_predict (X : DataFrame)
| model_predict_proba (X : DataFrame).

(** ** The calls of the whole page

    Besides the calls of [call], the script sets up the page, creates the
    widgets, loads the model and reads the heatmap file. The literal texts
    are those of the source; the three that hold characters beyond U+00FF
    (the icons in the page title and the tab titles) are written as their
    UTF-8 bytes, and no function looks into them. *)

Inductive page_call : Type :=
| st_set_page_config (page_title page_icon layout : string)
| st_markdown_html (body : string)
| st_tabs (tabs : list string)
| st_title (body : string)
| st_subheader (body : string)
| st_date_input (label : string)
| st_slider (label : string) (min_value max_value value : Z)
| st_selectbox (label : string) (options : list string)
| st_text_input (label value : string)
| st_button (label : string)
| load_model
| read_file (file : string)
| components_html (html : string) (height : Z)
| widget (c : call).

Definition page_title_text : string :=
  "Electric Vehicle Accident Predictor".

Definition page_icon_text : string :=
  "🚗".

(** The argument of [st.markdown(..., unsafe_allow_html=True)]. *)
Definition page_style : string :=
  "
    <style>
    .main {
        padding: 2rem;
    }
    .stButton>button {
        width: 100%;
        margin-top: 1rem;
    }
    </style>
    ".

Definition predictor_title : string :=
  "🚗 Electric Vehicle Accident Predictor".

Definition predictor_intro : string :=
  "
    This application predicts the likelihood of casualties in electric vehicle accidents based on various factors.
    The model has been trained on historical accident data from New York State.
    ".

(** The footer of the first tab. *)
Definition about_the_model : string :=
  "
    ### About the Model
    This model was trained on historical accident data from New York State involving electric vehicles.
    The prediction is based on various factors including:
    - Temporal features (time of day, day of week, etc.)
    - Vehicle type
    - Contributing factors
    - Location (ZIP code)

    The model's performance metric (F1 score) is 0.6133.

    Note: This model is only valid for accidents within New York State ZIP codes.
    Valid NY State ZIP code ranges:
    - New York City and surrounding areas: 10001-14925
    - Capital Region: 12007-12887
    - Central New York: 13001-13901
    - Western New York: 14001-14788
    - Southern Tier: 14801-14925
    ".

Definition heatmap_title : string :=
  "🗺️ EV Accident Heatmap".

Definition heatmap_intro : string :=
  "
    This heatmap shows the distribution of electric vehicle accidents across New York State.
    The intensity of the color indicates the frequency of accidents in each area.
    ".

(** ** [int(str)]

    [PyLong_FromUnicodeObject(u, 10)] first rewrites a non-ASCII string
    with [_PyUnicode_TransformDecimalAndSpaceToASCII], then parses the
    result with [PyLong_FromString]. *)

Definition PyUnicode_IS_ASCII (s : string) : bool :=
  forall_chars (fun c => ord c <? 128) s.

Definition zero_char : Z := 48.

Definition chr (n : Z) : ascii := ascii_of_N (Z.to_N n).

Fixpoint transform_chars (s : string) : string :=
  match s with
  | EmptyString => EmptyString
  | String c r =>
      if ord c <? 127 then String c (transform_chars r)
      else if Py_UNICODE_ISSPACE c then String " "%char (transform_chars r)
      else match Py_UNICODE_TODECIMAL c with
           | Some d => String (chr (zero_char + d)) (transform_chars r)
           | None => String "?"%char EmptyString
           end
  end.

Definition _PyUnicode_TransformDecimalAndSpaceToASCII (s : string) : string :=
  if PyUnicode_IS_ASCII s then s else transform_chars s.

Fixpoint skip_spaces (s : string) : string :=
  match s with
  | EmptyString => EmptyString
  | String c r => if Py_ISSPACE c then skip_spaces r else s
  end.

(** The result of the validating scan of [long_from_string_base]: the
    value of the digits read, how many digits there were (underscores are
    not counted), whether the last character read was an underscore, and
    the unread rest. *)
Record scanned : Type := mk_scanned
  { sc_value : Z; sc_digits : Z; sc_prev_underscore : bool; sc_rest : string }.

(** The loop of [long_from_string_base]: digits and single underscores;
    [None] when two underscores follow each other. *)
Fixpoint scan_digits (s : string) (prev_underscore : bool) (acc digits : Z)
  : option scanned :=
  match s with
  | EmptyString => Some (mk_scanned acc digits prev_underscore s)
  | String c r =>
      if is_underscore c then
        if prev_underscore then None else scan_digits r true acc digits
      else
        match digit_value c with
        | Some d => scan_digits r false (10 * acc + d) (digits + 1)
        | None => Some (mk_scanned acc digits prev_underscore s)
        end
  end.

Definition starts_with_underscore (s : string) : bool :=
  match s with
  | String c _ => is_underscore c
  | EmptyString => false
  end.

(** [_PY_LONG_MAX_STR_DIGITS_THRESHOLD]. *)
Definition MAX_STR_DIGITS_THRESHOLD : Z := 640.

(** [_PY_LONG_DEFAULT_MAX_STR_DIGITS], the limit of an interpreter that is
    not configured otherwise. *)
Definition DEFAULT_MAX_STR_DIGITS : Z := 4300.

Section Interpreter.

(** The interpreter's limit on the number of digits of an integer literal,
    [sys.get_int_max_str_digits()]: 4300 unless configured otherwise, 0
    when the limit is switched off (and in releases that have none). *)
Variable max_str_digits : Z.

(** The check against the limit, made once the digits are counted. *)
Definition exceeds_max_str_digits (digits : Z) : bool :=
  (MAX_STR_DIGITS_THRESHOLD <? digits)
  && (0 <? max_str_digits) && (max_str_digits <? digits).

(** [long_from_string_base] for base 10. *)
Definition long_from_string_base (s : string) : option Z :=
  if starts_with_underscore s then None
  else
    match scan_digits s false 0 0 with
    | None => None
    | Some sc =>
        if sc_prev_underscore sc then None
        else if sc_digits sc =? 0 then None
        else
          match skip_spaces (sc_rest sc) with
          | String _ _ => None
          | EmptyString =>
              if exceeds_max_str_digits (sc_digits sc) then None
              else Some (sc_value sc)
          end
    end.

(** [PyLong_FromString(str, &end, 10)]: leading white space, an optional
    sign ([+] is 43, [-] is 45), then the digits. *)
Definition PyLong_FromString (s : string) : option Z :=
  match skip_spaces s with
  | String c r =>
      if ord c =? 43 then long_from_string_base r
      else if ord c =? 45 then option_map Z.opp (long_from_string_base r)
      else long_from_string_base (String c r)
  | EmptyString => long_from_string_base EmptyString
  end.

(** [int(s)] for a [str] argument; [None] is [ValueError]. *)
Definition int (s : string) : option Z :=
  PyLong_FromString (_PyUnicode_TransformDecimalAndSpaceToASCII s).

(** ** The ZIP-code functions of [app.py] *)

Definition ny_ranges : list (Z * Z) :=
  [ (10001, 14925); (12007, 12887); (13001, 13901); (14001, 14788);
    (14801, 14925) ].

(** [any(lower <= zip_int <= upper for lower, upper in ny_ranges)]. *)
Definition in_ny_ranges (zip_int : Z) : bool :=
  existsb (fun r => (fst r <=? zip_int) && (zip_int <=? snd r)) ny_ranges.

Definition is_valid_ny_zipcode (zipcode : string) : bool :=
  match int zipcode with
  | Some zip_int => in_ny_ranges zip_int
  | None => false
  end.

(** The body of the [try] of [get_region], once [int] has returned. *)
Definition region_of (zip_int : Z) : string :=
  if (10001 <=? zip_int) && (zip_int <=? 14925) then
    if (10001 <=? zip_int) && (zip_int <=? 10282) then "Manhattan, NYC"
    else if (10301 <=? zip_int) && (zip_int <=? 10314) then "Staten Island, NYC"
    else if (10451 <=? zip_int) && (zip_int <=? 10475) then "Bronx, NYC"
    else if (11001 <=? zip_int) && (zip_int <=? 11697) then "Queens, NYC"
    else if (11201 <=? zip_int) && (zip_int <=? 11256) then "Brooklyn, NYC"
    else "New York City Area"
  else if (12007 <=? zip_int) && (zip_int <=? 12887) then "Capital Region"
  else if (13001 <=? zip_int) && (zip_int <=? 13901) then "Central New York"
  else if (14001 <=? zip_int) && (zip_int <=? 14788) then "Western New York"
  else if (14801 <=? zip_int) && (zip_int <=? 14925) then "Southern Tier"
  else "Unknown".

Definition get_region (zipcode : string) : string :=
  match int zipcode with
  | Some zip_int => region_of zip_int
  | None => "Invalid"
  end.

(** ** Running the script

    The effects of the script are the calls it makes to Streamlit and to
    the model, in order, and the way it ends: by reaching the end of a
    block, by an exception, or by [st.stop()]. *)

Section Script.

(** Exception objects that are instances of [Exception], with [str(e)];
    [int_ValueError s] is the [ValueError] that [int(s)] raises. *)
Variable exn : Type.
Variable str : exn -> string.
Variable int_ValueError : string -> exn.

(** The floats of the model's probability row, and [f"{p:.2%}"]. *)
Variable float : Type.
Variable format_percent : float -> string.

(** How a block ends. [Stop] is Streamlit's [StopException], raised by
    [st.stop()]; it derives from [BaseException], so that an
    [except Exception] clause does not catch it. *)
Inductive outcome (A : Type) : Type :=
| Normal (a : A)
| Raise (e : exn)
| Stop.

Arguments Normal {A} a.
Arguments Raise {A} e.
Arguments Stop {A}.

Definition script (A : Type) : Type := (list call * outcome A)%type.

Definition ret {A : Type} (a : A) : script A := ([], Normal a).

Definition bind {A B : Type} (m : script A) (k : A -> script B) : script B :=
  match snd m with
  | Normal a => ((fst m ++ fst (k a))%list, snd (k a))
  | Raise e => (fst m, Raise e)
  | Stop => (fst m, Stop)
  end.

Notation "x <- m ;; k" := (bind m (fun x => k))
  (at level 61, m at next level, right associativity).
Notation "m ;; k" := (bind m (fun _ => k))
  (at level 61, right associativity).

Definition emit (c : call) : script unit := ([c], Normal tt).

Definition raise {A : Type} (e : exn) : script A := ([], Raise e).

Definition st_stop {A : Type} : script A := ([], Stop).

(** [try: body except Exception as e: handler(e)]. *)
Definition try_except {A : Type} (body : script A) (handler : exn -> script A)
  : script A :=
  match snd body with
  | Raise e => ((fst body ++ fst (handler e))%list, snd (handler e))
  | _ => body
  end.

(** The unpickled model: what a call of each method does. [predict]
    returns the label [prediction[0]]; [predict_proba] returns the row
    [model.predict_proba(input_data)[0]], a pair of floats. *)
Record Model : Type := mk_Model
  { predict : DataFrame -> exn + Z;
    predict_proba : DataFrame -> exn + (float * float) }.

Definition call_predict (model : Model) (X : DataFrame) : script Z :=
  emit (model_predict X) ;;
  match predict model X with
  | inr prediction => ret prediction
  | inl e => raise e
  end.

Definition call_predict_proba (model : Model) (X : DataFrame)
  : script (float * float) :=
  emit (model_predict_proba X) ;;
  match predict_proba model X with
  | inr row => ret row
  | inl e => raise e
  end.

(** [int(zip_code)] as a statement of the script. *)
Definition int_stmt (s : string) : script Z :=
  match int s with
  | Some n => ret n
  | None => raise (int_ValueError s)
  end.

(** The feedback under the ZIP code field (the [if]/[elif]/[else] after
    [st.text_input]). *)
Definition zip_code_feedback (zip_code : string) : script unit :=
  if negb (isdigit zip_code) || negb (len zip_code =? 5) then
    emit (st_warning "Please enter a valid 5-digit ZIP code")
  else if negb (is_valid_ny_zipcode zip_code) then
    emit (st_error "This ZIP code is not in New York State. Please enter a valid NY ZIP code.")
  else
    let region := get_region zip_code in
    emit (st_success "Valid New York State ZIP code.").

(** The frame [input_data]. *)
Definition input_data (w : widgets) (zip_int : Z) : DataFrame :=
  {| Month := month (date_time w);
     Day := day (date_time w);
     Hour := hour w;
     DayOfWeek := day_of_week (date_time w);
     VEHICLE_TYPE_CODE_2 := vehicle_type w;
     ZIP_CODE := zip_int;
     CONTRIBUTING_FACTOR_VEHICLE_1 := contributing_factor w;
     IsRushHour := is_rush_hour (hour w);
     IsWeekend := is_weekend (day_of_week (date_time w));
     IsNightTime := is_night_time (hour w) |}.

(** The display of the results, from [st.header] to the last
    [st.markdown]. *)
Definition display_results (w : widgets) (prediction : Z)
  (prediction_proba : float * float) : script unit :=
  emit (st_header "Prediction Results") ;;
  emit (st_columns 2) ;;
  emit (st_metric "Prediction"
          (if prediction =? 1 then "Casualty Likely" else "No Casualty Likely")) ;;
  emit (st_metric "Probability" (format_percent (snd prediction_proba))) ;;
  emit (st_markdown "### Risk Factors") ;;
  emit (st_markdown
          (risk_factors_markdown
             (risk_factors (is_rush_hour (hour w)) (is_night_time (hour w))
                (contributing_factor w)))).

Definition cannot_predict_message : string :=
  "Cannot make prediction: Please enter a valid New York State ZIP code.".

Definition failure_message (e : exn) : string :=
  "Error making prediction: " ++ str e.

(** The body of [if st.button("Predict Accident Severity"):]. *)
Definition predict_button_handler (w : widgets) (model : Model) : script unit :=
  try_except
    ((if negb (is_valid_ny_zipcode (zip_code w)) then
        emit (st_error cannot_predict_message) ;;
        st_stop
      else ret tt) ;;
     zip_int <- int_stmt (zip_code w) ;;
     let input_data := input_data w zip_int in
     prediction <- call_predict model input_data ;;
     prediction_proba <- call_predict_proba model input_data ;;
     display_results w prediction prediction_proba)
    (fun e => emit (st_error (failure_message e))).

(** The [if st.button(...)] statement; [pressed] is what the button
    returns in this run. *)
Definition predict_button (pressed : bool) (w : widgets) (model : Model)
  : script unit :=
  if pressed then predict_button_handler w model else ret tt.

(** Widget values and models used in the concrete runs below: a Saturday
    morning in rush hour, a model whose [predict] raises [e], and a model
    that answers. *)
Definition saturday_morning (zip_code : string) : widgets :=
  mk_widgets (mk_date 2024 6 15) 8 "sedan" "unsafe speed" zip_code.

Definition failing_model (e : exn) : Model :=
  mk_Model (fun _ => inl e) (fun _ => inl e).

Definition working_model (prediction : Z) (row : float * float) : Model :=
  mk_Model (fun _ => inr prediction) (fun _ => inr row).

(** The calls of the model in a trace. *)
Definition is_model_call (c : call) : bool :=
  match c with
  | model_predict _ | model_predict_proba _ => true
  | _ => false
  end.

Definition model_calls (t : list call) : list call := filter is_model_call t.

(** ** The whole script

    One run of [app.py], from [st.set_page_config] to the heatmap tab. A
    run is given what the outside world answers in it: the result of
    [load_model()] (the unpickled model, or the exception of [open] or
    [pickle.load]), the values of the widgets, whether the button is
    pressed, and the result of reading the heatmap file. *)

Definition page (A : Type) : Type := (list page_call * outcome A)%type.

Definition page_ret {A : Type} (a : A) : page A := ([], Normal a).

Definition page_bind {A B : Type} (m : page A) (k : A -> page B) : page B :=
  match m with
  | (t, Normal a) => let (t', o) := k a in ((t ++ t')%list, o)
  | (t, Raise e) => (t, Raise e)
  | (t, Stop) => (t, Stop)
  end.

Notation "m >> k" := (page_bind m (fun _ => k))
  (at level 61, right associativity).

Definition page_emit (c : page_call) : page unit := ([c], Normal tt).

Definition page_raise {A : Type} (e : exn) : page A := ([], Raise e).

Definition page_stop {A : Type} : page A := ([], Stop).

(** [try: body except Exception as e: handler(e)] at the level of the
    page. *)
Definition page_try_except {A : Type} (body : page A)
  (handler : exn -> page A) : page A :=
  match body with
  | (t, Raise e) => let (t', o) := handler e in ((t ++ t')%list, o)
  | _ => body
  end.

(** A block already modelled over [call], run as part of the page. *)
Definition widgets_of {A : Type} (m : script A) : page A :=
  (map widget (fst m), snd m).

Definition vehicle_types : list string :=
  ["sedan"; "suv"; "bus"; "bicycle"; "truck"; "van"; "motorcycle"].

Definition contributing_factors : list string :=
  [ "driver inattention/distraction";
    "failure to yield right-of-way";
    "following too closely";
    "unsafe speed";
    "unsafe lane changing";
    "backing unsafely";
    "other" ].

(** The [try] statement around [load_model()]. *)
Definition load_model_block (loaded : exn + Model) : page Model :=
  page_try_except
    (page_emit load_model >>
     match loaded with
     | inr model =>
         page_emit (widget (st_success "Model loaded successfully!")) >>
         page_ret model
     | inl e => page_raise e
     end)
    (fun e =>
       page_emit (widget (st_error ("Error loading model: " ++ str e))) >>
       page_stop).

(** The body of [with tab1:]. The default of the date widget is
    [datetime.now()], which the call does not record. *)
Definition tab1 (loaded : exn + Model) (w : widgets) (pressed : bool)
  : page unit :=
  page_emit (st_title predictor_title) >>
  page_emit (widget (st_markdown predictor_intro)) >>
  page_bind (load_model_block loaded) (fun model =>
  page_emit (widget (st_columns 2)) >>
  page_emit (st_subheader "Temporal Information") >>
  page_emit (st_date_input "Select Date") >>
  page_emit (st_slider "Hour of Day" 0 23 12) >>
  page_emit (st_subheader "Vehicle and Location Information") >>
  page_emit (st_selectbox "Vehicle Type" vehicle_types) >>
  page_emit (st_selectbox "Contributing Factor" contributing_factors) >>
  page_emit (st_text_input "ZIP Code" "10001") >>
  widgets_of (zip_code_feedback (zip_code w)) >>
  page_emit (st_button "Predict Accident Severity") >>
  widgets_of (predict_button pressed w model) >>
  page_emit (widget (st_markdown "---")) >>
  page_emit (widget (st_markdown about_the_model))).

(** The body of [with tab2:]. *)
Definition tab2 (heatmap : exn + string) : page unit :=
  page_emit (st_title heatmap_title) >>
  page_emit (widget (st_markdown heatmap_intro)) >>
  page_try_except
    (page_emit (read_file "ev_heatmap.html") >>
     match heatmap with
     | inr html_content => page_emit (components_html html_content 1200)
     | inl e => page_raise e
     end)
    (fun e =>
       page_emit (widget (st_error ("Error loading heatmap: " ++ str e)))).

(** The script [app.py]. *)
Definition app_py (loaded : exn + Model) (w : widgets) (pressed : bool)
  (heatmap : exn + string) : page unit :=
  page_emit (st_set_page_config page_title_text page_icon_text "wide") >>
  page_emit (st_markdown_html page_style) >>
  page_emit (st_tabs ["Accident Predictor"; "EV Accident Heatmap"]) >>
  tab1 loaded w pressed >>
  tab2 heatmap.

(** The calls of a run before the model is loaded, and the calls that
    create the form once it is. *)
Definition page_head : list page_call :=
  [ st_set_page_config page_title_text page_icon_text "wide";
    st_markdown_html page_style;
    st_tabs ["Accident Predictor"; "EV Accident Heatmap"];
    st_title predictor_title;
    widget (st_markdown predictor_intro);
    load_model ].

Definition form_calls : list page_call :=
  [ widget (st_success "Model loaded successfully!");
    widget (st_columns 2);
    st_subheader "Temporal Information";
    st_date_input "Select Date";
    st_slider "Hour of Day" 0 23 12;
    st_subheader "Vehicle and Location Information";
    st_selectbox "Vehicle Type" vehicle_types;
    st_selectbox "Contributing Factor" contributing_factors;
    st_text_input "ZIP Code" "10001" ].

Definition footer_calls : list page_call :=
  [ widget (st_markdown "---"); widget (st_markdown about_the_model) ].

(** The last call of the heatmap tab. *)
Definition heatmap_result (heatmap : exn + string) : page_call :=
  match heatmap with
  | inr html_content => components_html html_content 1200
  | inl e => widget (st_error ("Error loading heatmap: " ++ str e))
  end.

(** A run in which the model is loaded, up to the end of the handler. *)
Definition before_footer (w : widgets) (pressed : bool) (model : Model)
  : list page_call :=
  (page_head ++ form_calls
   ++ map widget (fst (zip_code_feedback (zip_code w)))
   ++ st_button "Predict Accident Severity"
      :: map widget (fst (predict_button pressed w model)))%list.

(** Whether a call belongs to the heatmap tab. *)
Definition is_heatmap_call (c : page_call) : bool :=
  match c with
  | read_file _ | components_html _ _ => true
  | st_title body => String.eqb body heatmap_title
  | _ => false
  end.

(** Whether a page call is a call of the model. *)
Definition is_page_model_call (c : page_call) : bool :=
  match c with
  | widget c => is_model_call c
  | _ => false
  end.

(** ** What the specification says of the ZIP-code functions *)

(** A string of exactly five ASCII digits. *)
Definition five_ascii_digits (s : string) : bool :=
  (String.length s =? 5)%nat && forall_chars is_ascii_digit s.

Definition decimal_step (acc : Z) (c : ascii) : Z := 10 * acc + (ord c - 48).

(** The number a string of ASCII digits denotes in base 10. *)
Definition decimal_value (s : string) : Z :=
  fold_left decimal_step (list_ascii_of_string s) 0.

(** The union of ranges of the specification. *)
Definition in_spec_ranges (z : Z) : Prop :=
  10001 <= z <= 14925 \/ 12007 <= z <= 12887 \/ 13001 <= z <= 13901
  \/ 14001 <= z <= 14788 \/ 14801 <= z <= 14925.

(** Validity as the specification words it: a 5-digit numeric string whose
    integer value lies in the union of the ranges. *)
Definition spec_valid_zip (s : string) : Prop :=
  five_ascii_digits s = true /\ in_spec_ranges (decimal_value s).

(** Malformed input as the specification words it: not parseable as an
    integer, or not exactly 5 digits. *)
Definition spec_malformed_zip (s : string) : Prop :=
  int s = None \/ five_ascii_digits s = false.

(** A character that [int] reads as a decimal digit (one on which
    [Py_UNICODE_TODECIMAL] answers), and the number that a string of such
    characters denotes. *)
Definition is_decimal_digit (c : ascii) : bool :=
  match Py_UNICODE_TODECIMAL c with
  | Some _ => true
  | None => false
  end.

Definition decimal_digit_step (acc : Z) (c : ascii) : Z :=
  10 * acc + match Py_UNICODE_TODECIMAL c with
             | Some d => d
             | None => 0
             end.

Definition decimal_digits_value (s : string) : Z :=
  fold_left decimal_digit_step (list_ascii_of_string s) 0.

(** Exactly five decimal digits whose value lies in the union of the
    ranges. *)
Definition five_decimal_digits_in_ranges (s : string) : Prop :=
  String.length s = 5%nat
  /\ forall_chars is_decimal_digit s = true
  /\ in_spec_ranges (decimal_digits_value s).

(** The regions [get_region] can return according to its branches. *)
Definition nyc_regions : list string :=
  [ "Manhattan, NYC"; "Staten Island, NYC"; "Bronx, NYC"; "Queens, NYC";
    "Brooklyn, NYC"; "New York City Area" ].

Definition broader_regions : list string :=
  [ "Capital Region"; "Central New York"; "Western New York";
    "Southern Tier" ].

(** The regions that some string is classified as. *)
Definition reachable_regions : list string :=
  [ "Manhattan, NYC"; "Staten Island, NYC"; "Bronx, NYC"; "Queens, NYC";
    "New York City Area"; "Unknown"; "Invalid" ].

(** * Properties *)

(** ** The ranges *)

Ltac bool_to_prop :=
  repeat match goal with
    | H : (_ && _)%bool = true |- _ => apply andb_true_iff in H; destruct H
    | H : (_ && _)%bool = false |- _ => apply andb_false_iff in H
    | H : (_ || _)%bool = true |- _ => apply orb_true_iff in H
    | H : (_ || _)%bool = false |- _ => apply orb_false_iff in H; destruct H
    | H : negb _ = true |- _ => apply negb_true_iff in H
    | H : negb _ = false |- _ => apply negb_false_iff in H
    | H : (_ <=? _) = true |- _ => apply Z.leb_le in H
    | H : (_ <=? _) = false |- _ => apply Z.leb_gt in H
    | H : (_ <? _) = true |- _ => apply Z.ltb_lt in H
    | H : (_ <? _) = false |- _ => apply Z.ltb_ge in H
    | H : (_ >=? _) = true |- _ => rewrite Z.geb_leb in H
    | H : (_ >=? _) = false |- _ => rewrite Z.geb_leb in H
    | H : (_ >? _) = true |- _ => rewrite Z.gtb_ltb in H
    | H : (_ >? _) = false |- _ => rewrite Z.gtb_ltb in H
    | H : (_ =? _) = true |- _ => apply Z.eqb_eq in H
    | H : (_ =? _) = false |- _ => apply Z.eqb_neq in H
    end.

Ltac bool_cases :=
  repeat (bool_to_prop;
          match goal with
          | H : _ \/ _ |- _ => destruct H
          end);
  bool_to_prop.

(** Drops from the context what the statement does not mention. *)
Ltac forget_unused :=
  repeat match goal with x : _ |- _ => clear x end.

Ltac case_conditions :=
  repeat match goal with
    | |- context [if ?b then _ else _] => destruct b eqn:?
    end.

Lemma in_ny_ranges_outer (z : Z) :
  in_ny_ranges z = (10001 <=? z) && (z <=? 14925).
Proof using Type.
  unfold in_ny_ranges, ny_ranges; simpl.
  destruct (10001 <=? z) eqn:Hlo, (z <=? 14925) eqn:Hhi; simpl; try reflexivity;
    bool_to_prop;
    repeat match goal with
      | |- context [?a <=? ?b] =>
          let E := fresh in destruct (a <=? b) eqn:E; simpl; bool_to_prop
      end; try reflexivity; lia.
Qed.

Lemma in_ny_ranges_spec (z : Z) : in_ny_ranges z = true <-> in_spec_ranges z.
Proof using Type.
  rewrite in_ny_ranges_outer. unfold in_spec_ranges. split; intro H.
  - bool_to_prop. lia.
  - apply andb_true_iff. split; apply Z.leb_le; lia.
Qed.

Lemma region_of_nyc (z : Z) :
  10001 <= z <= 14925 -> In (region_of z) nyc_regions.
Proof using Type.
  intro H. unfold region_of, nyc_regions.
  case_conditions; bool_to_prop; simpl; try tauto; lia.
Qed.

Lemma region_of_unknown (z : Z) :
  ~ 10001 <= z <= 14925 -> region_of z = "Unknown".
Proof using Type.
  intro H. unfold region_of.
  case_conditions; bool_to_prop; try reflexivity; lia.
Qed.

Lemma nyc_regions_named (r : string) :
  In r nyc_regions ->
  r <> "Unknown" /\ r <> "Invalid" /\ ~ In r broader_regions.
Proof using Type.
  unfold nyc_regions, broader_regions; simpl.
  intros H; repeat destruct H as [H | H]; subst;
    repeat split; try discriminate; try contradiction;
    intros H; repeat destruct H as [H | H]; try discriminate; contradiction.
Qed.

(** ** [int] on strings of ASCII digits *)

Lemma decimal_value_fold (s : string) :
  decimal_value s = fold_left decimal_step (list_ascii_of_string s) 0.
Proof using Type. reflexivity. Qed.

Lemma is_ascii_digit_range (c : ascii) :
  is_ascii_digit c = true -> 48 <= ord c <= 57.
Proof using Type. unfold is_ascii_digit. intro H. bool_to_prop. lia. Qed.

Lemma digit_is_ascii (s : string) :
  forall_chars is_ascii_digit s = true -> PyUnicode_IS_ASCII s = true.
Proof using Type.
  unfold PyUnicode_IS_ASCII.
  induction s as [| c r IH]; simpl; intro H; [reflexivity |].
  apply andb_true_iff in H. destruct H as [Hc Hr].
  apply is_ascii_digit_range in Hc.
  rewrite (IH Hr), andb_true_r. apply Z.ltb_lt. lia.
Qed.

Lemma scan_digits_all_digits (s : string) :
  forall_chars is_ascii_digit s = true ->
  forall prev acc digits,
    scan_digits s prev acc digits =
    Some (mk_scanned (fold_left decimal_step (list_ascii_of_string s) acc)
            (digits + Z.of_nat (String.length s))
            (match s with EmptyString => prev | String _ _ => false end)
            EmptyString).
Proof using Type.
  induction s as [| c r IH]; intros H prev acc digits.
  - simpl. rewrite Z.add_0_r. reflexivity.
  - cbn [forall_chars] in H. apply andb_true_iff in H. destruct H as [Hc Hr].
    cbn [scan_digits]. unfold digit_value. rewrite Hc.
    apply is_ascii_digit_range in Hc.
    replace (is_underscore c) with false
      by (unfold is_underscore; symmetry; apply Z.eqb_neq; lia).
    rewrite (IH Hr). cbn [list_ascii_of_string fold_left String.length].
    unfold decimal_step at 2.
    f_equal. f_equal; [lia | destruct r; reflexivity].
Qed.

Lemma decimal_bounds (l : list ascii) :
  Forall (fun c => is_ascii_digit c = true) l ->
  forall acc,
    acc * 10 ^ Z.of_nat (List.length l) <= fold_left decimal_step l acc
    < (acc + 1) * 10 ^ Z.of_nat (List.length l).
Proof using Type.
  induction 1 as [| c l Hc _ IH]; intro acc.
  - simpl. lia.
  - cbn [fold_left List.length]. rewrite Nat2Z.inj_succ, Z.pow_succ_r by lia.
    apply is_ascii_digit_range in Hc. specialize (IH (decimal_step acc c)).
    unfold decimal_step in *.
    assert (0 < 10 ^ Z.of_nat (List.length l)) by (apply Z.pow_pos_nonneg; lia).
    nia.
Qed.

Lemma forall_chars_Forall (p : ascii -> bool) (s : string) :
  forall_chars p s = true ->
  Forall (fun c => p c = true) (list_ascii_of_string s).
Proof using Type.
  induction s as [| c r IH]; simpl; intro H; [constructor |].
  apply andb_true_iff in H. destruct H. constructor; auto.
Qed.

Lemma length_list_ascii (s : string) :
  List.length (list_ascii_of_string s) = String.length s.
Proof using Type. induction s; simpl; congruence. Qed.

(** On a non-empty string of ASCII digits [int] returns the decimal value,
    unless the string is longer than the interpreter allows. *)
Lemma int_digits (s : string) :
  s <> EmptyString ->
  forall_chars is_ascii_digit s = true ->
  int s = if exceeds_max_str_digits (len s) then None
          else Some (decimal_value s).
Proof using Type.
  intros Hne Hd. unfold int, _PyUnicode_TransformDecimalAndSpaceToASCII.
  rewrite (digit_is_ascii _ Hd).
  destruct s as [| c r]; [congruence |].
  pose proof Hd as Hd'. cbn [forall_chars] in Hd'.
  apply andb_true_iff in Hd'. destruct Hd' as [Hc _].
  apply is_ascii_digit_range in Hc.
  unfold PyLong_FromString. cbn [skip_spaces].
  replace (Py_ISSPACE c) with false
    by (unfold Py_ISSPACE; symmetry; apply orb_false_iff; split;
        [apply andb_false_iff; right; apply Z.leb_gt | apply Z.eqb_neq]; lia).
  replace (ord c =? 43) with false by (symmetry; apply Z.eqb_neq; lia).
  replace (ord c =? 45) with false by (symmetry; apply Z.eqb_neq; lia).
  unfold long_from_string_base. cbn [starts_with_underscore].
  replace (is_underscore c) with false
    by (unfold is_underscore; symmetry; apply Z.eqb_neq; lia).
  rewrite (scan_digits_all_digits _ Hd).
  cbn [sc_prev_underscore sc_digits sc_rest sc_value skip_spaces].
  replace (0 + Z.of_nat (String.length (String c r)) =? 0) with false
    by (symmetry; apply Z.eqb_neq; cbn [String.length]; lia).
  rewrite Z.add_0_l. reflexivity.
Qed.

Lemma exceeds_small (digits : Z) :
  digits <= 640 -> exceeds_max_str_digits digits = false.
Proof using Type.
  intro H. unfold exceeds_max_str_digits, MAX_STR_DIGITS_THRESHOLD.
  replace (640 <? digits) with false by (symmetry; apply Z.ltb_ge; lia).
  reflexivity.
Qed.

Lemma five_ascii_digits_inv (s : string) :
  five_ascii_digits s = true ->
  String.length s = 5%nat /\ forall_chars is_ascii_digit s = true.
Proof using Type.
  unfold five_ascii_digits. intro H. apply andb_true_iff in H.
  destruct H as [H1 H2]. apply Nat.eqb_eq in H1. auto.
Qed.

Lemma int_five_digits (s : string) :
  five_ascii_digits s = true -> int s = Some (decimal_value s).
Proof using Type.
  intro H. apply five_ascii_digits_inv in H. destruct H as [Hlen Hd].
  rewrite int_digits; auto.
  - rewrite exceeds_small; [reflexivity |]. unfold len. lia.
  - intro E. subst s. discriminate.
Qed.

(** A string of ASCII digits without a leading zero has a value with as
    many decimal digits as the string has characters. *)
Lemma decimal_value_magnitude (c : ascii) (r : string) :
  forall_chars is_ascii_digit (String c r) = true ->
  ord c <> 48 ->
  10 ^ Z.of_nat (String.length r) <= decimal_value (String c r)
  < 10 ^ Z.of_nat (String.length (String c r)).
Proof using Type.
  intros Hd Hnz. cbn [forall_chars] in Hd. apply andb_true_iff in Hd.
  destruct Hd as [Hc Hr]. apply is_ascii_digit_range in Hc.
  rewrite decimal_value_fold. cbn [list_ascii_of_string fold_left String.length].
  pose proof (decimal_bounds _ (forall_chars_Forall _ _ Hr) (decimal_step 0 c)) as B.
  rewrite length_list_ascii in B. rewrite Nat2Z.inj_succ, Z.pow_succ_r by lia.
  unfold decimal_step in *.
  assert (0 < 10 ^ Z.of_nat (String.length r)) by (apply Z.pow_pos_nonneg; lia).
  nia.
Qed.

Lemma wrong_length_out_of_range (c : ascii) (r : string) :
  forall_chars is_ascii_digit (String c r) = true ->
  ord c <> 48 ->
  String.length (String c r) <> 5%nat ->
  ~ 10001 <= decimal_value (String c r) <= 14925.
Proof using Type.
  intros Hd Hnz Hlen.
  destruct (decimal_value_magnitude c r Hd Hnz) as [Hlo Hhi].
  cbn [String.length] in *.
  destruct (Nat.le_gt_cases (String.length r) 3) as [Hs | Hl].
  - assert (10 ^ Z.of_nat (S (String.length r)) <= 10 ^ 4)
      by (apply Z.pow_le_mono_r; lia).
    change (10 ^ 4) with 10000 in *. lia.
  - assert (10 ^ 5 <= 10 ^ Z.of_nat (String.length r))
      by (apply Z.pow_le_mono_r; lia).
    change (10 ^ 5) with 100000 in *. lia.
Qed.

(** ** The region classifier *)

(** C1. The test vectors of the classifier, evaluated on the code:
    "10001" is Manhattan, "11201" is Queens (the Queens test comes before
    the Brooklyn test), "99999" is Unknown; "13500" is classified
    "New York City Area" by the outer range, not "Central New York". *)
Theorem get_region_test_vectors :
  get_region "10001" = "Manhattan, NYC"
  /\ get_region "11201" = "Queens, NYC"
  /\ get_region "99999" = "Unknown"
  /\ get_region "13500" = "New York City Area"
  /\ get_region "13500" <> "Central New York".
Proof using Type. repeat split; try reflexivity. vm_compute. discriminate. Qed.

(** C3. [get_region] never returns one of the four broader regions: every
    integer of their ranges lies in the outer range 10001..14925, which is
    tested first and answers with an NYC region; the image of the
    classifier is within the six NYC regions, "Unknown" and "Invalid". *)
Theorem get_region_image (zipcode : string) :
  In (get_region zipcode) (nyc_regions ++ ["Unknown"; "Invalid"])%list
  /\ ~ In (get_region zipcode) broader_regions
  /\ (forall z : Z,
        12007 <= z <= 12887 \/ 13001 <= z <= 13901
        \/ 14001 <= z <= 14788 \/ 14801 <= z <= 14925 ->
        10001 <= z <= 14925 /\ In (region_of z) nyc_regions).
Proof using Type.
  split; [| split].
  - unfold get_region. destruct (int zipcode) as [z |].
    + destruct (Z_le_dec 10001 z) as [Hlo |]; [destruct (Z_le_dec z 14925) |].
      * apply in_or_app. left. apply region_of_nyc. lia.
      * rewrite region_of_unknown by lia. apply in_or_app. right. simpl. auto.
      * rewrite region_of_unknown by lia. apply in_or_app. right. simpl. auto.
    + apply in_or_app. right. simpl. auto.
  - unfold get_region. destruct (int zipcode) as [z |].
    + destruct (Z_le_dec 10001 z) as [Hlo |]; [destruct (Z_le_dec z 14925) |].
      * apply nyc_regions_named, region_of_nyc. lia.
      * rewrite region_of_unknown by lia. simpl.
        intros H; repeat destruct H as [H | H]; try discriminate; contradiction.
      * rewrite region_of_unknown by lia. simpl.
        intros H; repeat destruct H as [H | H]; try discriminate; contradiction.
    + simpl. intros H; repeat destruct H as [H | H]; try discriminate; contradiction.
  - intros z Hz. assert (10001 <= z <= 14925) by lia.
    split; [assumption | apply region_of_nyc; assumption].
Qed.

(** C9. Validity and classification agree: [is_valid_ny_zipcode] accepts a
    string exactly when [get_region] gives it a region other than
    "Unknown" and "Invalid". *)
Theorem valid_iff_named_region (zipcode : string) :
  is_valid_ny_zipcode zipcode = true <->
  get_region zipcode <> "Unknown" /\ get_region zipcode <> "Invalid".
Proof using Type.
  unfold is_valid_ny_zipcode, get_region.
  destruct (int zipcode) as [z |].
  - rewrite in_ny_ranges_outer. split.
    + intro H. bool_to_prop.
      destruct (nyc_regions_named (region_of z)) as (? & ? & _);
        [apply region_of_nyc; lia | auto].
    + intros [Hu _]. apply andb_true_iff.
      destruct (Z_le_dec 10001 z); [destruct (Z_le_dec z 14925) |];
        try (split; apply Z.leb_le; lia);
        exfalso; apply Hu, region_of_unknown; lia.
  - split; [discriminate | intros [_ H]; congruence].
Qed.

(** ** The validity test *)

(** C2, as amended. [is_valid_ny_zipcode] returns true exactly when [int]
    accepts the string and the integer lies in the union of the five
    ranges; the length of the string is not looked at. On a string of
    exactly five ASCII digits [int] returns the decimal value, so there the
    function returns true exactly when that value lies in the union. *)
Theorem is_valid_ny_zipcode_iff (zipcode : string) :
  (is_valid_ny_zipcode zipcode = true <->
   exists z, int zipcode = Some z /\ in_spec_ranges z)
  /\ (five_ascii_digits zipcode = true ->
      (is_valid_ny_zipcode zipcode = true <-> spec_valid_zip zipcode)).
Proof using Type.
  split.
  - unfold is_valid_ny_zipcode. destruct (int zipcode) as [z |].
    + rewrite in_ny_ranges_spec. split.
      * intro H. exists z. auto.
      * intros (z' & E & H). injection E as ->. exact H.
    + split; [discriminate | intros (z & E & _); discriminate].
  - intro H5. unfold is_valid_ny_zipcode, spec_valid_zip.
    rewrite (int_five_digits _ H5), in_ny_ranges_spec.
    split; [intro; split; assumption | intros [_ H]; exact H].
Qed.

(** C4, as amended. When [int] rejects the string, [is_valid_ny_zipcode]
    returns false and [get_region] returns "Invalid". When [int] accepts
    it, the length plays no part: [get_region] classifies the integer and
    does not return "Invalid". A non-empty string of ASCII digits that is
    not five long and does not start with 0 is rejected with false, and
    with "Unknown" (with "Invalid" when it has more digits than the
    interpreter allows). *)
Theorem malformed_zip_results (zipcode : string) :
  (int zipcode = None ->
   is_valid_ny_zipcode zipcode = false /\ get_region zipcode = "Invalid")
  /\ (forall z, int zipcode = Some z ->
      is_valid_ny_zipcode zipcode = in_ny_ranges z
      /\ get_region zipcode = region_of z
      /\ get_region zipcode <> "Invalid")
  /\ (forall c r, zipcode = String c r ->
      forall_chars is_ascii_digit zipcode = true ->
      ord c <> 48 ->
      String.length zipcode <> 5%nat ->
      is_valid_ny_zipcode zipcode = false
      /\ get_region zipcode =
         if exceeds_max_str_digits (len zipcode) then "Invalid" else "Unknown").
Proof using Type.
  split; [| split].
  - intro E. unfold is_valid_ny_zipcode, get_region. rewrite E. auto.
  - intros z E. unfold is_valid_ny_zipcode, get_region. rewrite E.
    repeat split.
    destruct (Z_le_dec 10001 z) as [Hlo |]; [destruct (Z_le_dec z 14925) |].
    + apply nyc_regions_named, region_of_nyc. lia.
    + rewrite region_of_unknown by lia. discriminate.
    + rewrite region_of_unknown by lia. discriminate.
  - intros c r -> Hd Hnz Hlen.
    unfold is_valid_ny_zipcode, get_region.
    rewrite int_digits by (auto; discriminate).
    destruct (exceeds_max_str_digits (len (String c r))); [auto |].
    pose proof (wrong_length_out_of_range c r Hd Hnz Hlen) as Hout.
    rewrite in_ny_ranges_outer, region_of_unknown by exact Hout.
    split; [| reflexivity].
    apply andb_false_iff.
    destruct (Z_le_dec 10001 (decimal_value (String c r)));
      [right | left]; apply Z.leb_gt; lia.
Qed.

(** ** The temporal features *)

Lemma weekday_range (d : date) : 0 <= weekday d <= 6.
Proof using Type. unfold weekday. pose proof (Z.mod_pos_bound (toordinal d + 6) 7). lia. Qed.

(** [weekday] counts days from a Monday: day 1 is Monday 0001-01-01, and
    one day later the weekday is one more, after Sunday (6) Monday (0). *)
Lemma weekday_ordinal (d d' : date) :
  weekday (mk_date 1 1 1) = 0
  /\ (toordinal d' = toordinal d + 1 -> weekday d' = (weekday d + 1) mod 7).
Proof using Type.
  split; [reflexivity |]. unfold weekday. intros ->.
  rewrite Zplus_mod_idemp_l. f_equal. lia.
Qed.

(** *** [weekday] against the calendar *)

Lemma is_leap_gregorian (y : Z) : _is_leap y = gregorian_leap y.
Proof using Type.
  unfold _is_leap, gregorian_leap.
  destruct (Z.eqb_spec (y mod 400) 0) as [H400 | H400];
    destruct (Z.eqb_spec (y mod 100) 0) as [H100 | H100];
    destruct (Z.eqb_spec (y mod 4) 0) as [H4 | H4];
    cbn; try reflexivity; exfalso;
    revert H400 H100 H4; Z.div_mod_to_equations; lia.
Qed.

Lemma month_cases (m : Z) :
  1 <= m <= 12 ->
  m = 1 \/ m = 2 \/ m = 3 \/ m = 4 \/ m = 5 \/ m = 6 \/ m = 7 \/ m = 8
  \/ m = 9 \/ m = 10 \/ m = 11 \/ m = 12.
Proof using Type. lia. Qed.

Lemma days_in_month_length (y m : Z) :
  1 <= m <= 12 -> _days_in_month y m = month_length y m.
Proof using Type.
  intro H. unfold _days_in_month, month_length. rewrite is_leap_gregorian.
  destruct (month_cases m H) as [-> | [-> | [-> | [-> | [-> | [-> | [-> | [-> | [-> | [-> | [-> | ->]]]]]]]]]]];
    cbn; destruct (gregorian_leap y); reflexivity.
Qed.

(** A [date] object is a day of the calendar. *)
Lemma check_date_calendar (d : date) :
  check_date_fields d = true -> calendar_date d.
Proof using Type.
  unfold check_date_fields, calendar_date. intro H. bool_to_prop.
  assert (Hm : 1 <= month d <= 12) by lia.
  rewrite <- (days_in_month_length (year d) (month d) Hm). lia.
Qed.

Lemma days_before_month_next (y m : Z) :
  1 <= m < 12 ->
  _days_before_month y (m + 1) = _days_before_month y m + month_length y m.
Proof using Type.
  intro H. unfold _days_before_month, month_length. rewrite is_leap_gregorian.
  assert (H' : 1 <= m <= 12) by lia.
  destruct (month_cases m H') as [-> | [-> | [-> | [-> | [-> | [-> | [-> | [-> | [-> | [-> | [-> | ->]]]]]]]]]]];
    try lia; cbn; destruct (gregorian_leap y); reflexivity.
Qed.

Lemma days_before_year_next (y : Z) :
  _days_before_year (y + 1)
  = _days_before_year y + 365 + (if gregorian_leap y then 1 else 0).
Proof using Type.
  unfold _days_before_year, gregorian_leap. cbv zeta.
  replace (y + 1 - 1) with y by lia.
  destruct (Z.eqb_spec (y mod 400) 0) as [H400 | H400];
    destruct (Z.eqb_spec (y mod 100) 0) as [H100 | H100];
    destruct (Z.eqb_spec (y mod 4) 0) as [H4 | H4];
    revert H400 H100 H4; Z.div_mod_to_equations; lia.
Qed.

Lemma days_before_december (y : Z) :
  _days_before_month y 12 + 31 = 365 + (if gregorian_leap y then 1 else 0).
Proof using Type.
  unfold _days_before_month. rewrite is_leap_gregorian. cbn.
  destruct (gregorian_leap y); reflexivity.
Qed.

Lemma days_before_january (y : Z) : _days_before_month y 1 = 0.
Proof using Type. reflexivity. Qed.

(** The day after has the next ordinal. *)
Lemma toordinal_next_day (d : date) :
  calendar_date d -> toordinal (next_day d) = toordinal d + 1.
Proof using Type.
  intros [Hm Hd]. unfold next_day, toordinal, _ymd2ord.
  destruct (Z.ltb_spec (day d) (month_length (year d) (month d))) as [Hlt | Hge].
  - cbn [year month day]. lia.
  - assert (Hlast : day d = month_length (year d) (month d)) by lia.
    destruct (Z.ltb_spec (month d) 12) as [Hm12 | Hm12].
    + cbn [year month day].
      rewrite days_before_month_next by lia. lia.
    + assert (E : month d = 12) by lia.
      cbn [year month day]. rewrite days_before_year_next, days_before_january.
      pose proof (days_before_december (year d)) as H12.
      rewrite E in *. unfold month_length in Hlast. cbn in Hlast. lia.
Qed.

Lemma weekday_next_day (d : date) :
  calendar_date d -> weekday (next_day d) = (weekday d + 1) mod 7.
Proof using Type.
  intro H. unfold weekday. rewrite (toordinal_next_day d H).
  rewrite Zplus_mod_idemp_l. f_equal. lia.
Qed.

Lemma month_length_positive (y m : Z) : 28 <= month_length y m <= 31.
Proof using Type.
  unfold month_length.
  destruct (m =? 2); [destruct (gregorian_leap y); lia |].
  destruct ((m =? 4) || (m =? 6) || (m =? 9) || (m =? 11)); lia.
Qed.

Lemma next_day_calendar (d : date) :
  calendar_date d -> calendar_date (next_day d).
Proof using Type.
  intros [Hm Hd]. unfold next_day, calendar_date.
  destruct (Z.ltb_spec (day d) (month_length (year d) (month d))).
  - cbn [year month day]. lia.
  - destruct (Z.ltb_spec (month d) 12); cbn [year month day].
    + pose proof (month_length_positive (year d) (month d + 1)). lia.
    + pose proof (month_length_positive (year d + 1) 1). lia.
Qed.

Lemma days_after_calendar (n : nat) (d : date) :
  calendar_date d ->
  calendar_date (days_after n d)
  /\ toordinal (days_after n d) = toordinal d + Z.of_nat n.
Proof using Type.
  intro H. unfold days_after. induction n as [| n [IHc IHo]].
  - cbn. split; [exact H | lia].
  - rewrite Nat.iter_succ. split; [apply next_day_calendar; exact IHc |].
    rewrite (toordinal_next_day _ IHc), IHo. lia.
Qed.

(** [n] days after a day of the calendar the weekday has moved on by [n],
    counted from Monday (0) to Sunday (6) and round again. *)
Lemma weekday_days_after (n : nat) (d : date) :
  calendar_date d ->
  weekday (days_after n d) = (weekday d + Z.of_nat n) mod 7.
Proof using Type.
  intro H. destruct (days_after_calendar n d H) as [_ Ho].
  unfold weekday. rewrite Ho, Zplus_mod_idemp_l. f_equal. lia.
Qed.

Lemma date_eta (d : date) : mk_date (year d) (month d) (day d) = d.
Proof using Type. destruct d; reflexivity. Qed.

Lemma prev_day_calendar (d : date) :
  calendar_date d -> calendar_date (prev_day d) /\ next_day (prev_day d) = d.
Proof using Type.
  destruct d as [y m dd]. unfold calendar_date, prev_day.
  cbn [year month day]. intros [Hm Hd].
  destruct (Z.ltb_spec 1 dd) as [H1 | H1].
  - cbn [year month day]. split; [lia |].
    unfold next_day. cbn [year month day].
    destruct (Z.ltb_spec (dd - 1) (month_length y m)); [| lia].
    f_equal. lia.
  - assert (dd = 1) by lia. subst dd.
    destruct (Z.ltb_spec 1 m) as [H2 | H2].
    + pose proof (month_length_positive y (m - 1)).
      cbn [year month day]. split; [lia |].
      unfold next_day. cbn [year month day]. rewrite Z.ltb_irrefl.
      destruct (Z.ltb_spec (m - 1) 12); [| lia].
      f_equal. lia.
    + assert (m = 1) by lia. subst m.
      cbn [year month day]. split; [cbn; lia |].
      unfold next_day. cbn. f_equal. lia.
Qed.

Lemma days_before_year_lower (y : Z) :
  1 <= y -> 365 * (y - 1) <= _days_before_year y.
Proof using Type.
  intro H. unfold _days_before_year. cbv zeta.
  Z.div_mod_to_equations. lia.
Qed.

Lemma days_before_month_lower (y m : Z) :
  1 <= m <= 12 ->
  0 <= _days_before_month y m /\ (2 <= m -> 31 <= _days_before_month y m).
Proof using Type.
  intro H. unfold _days_before_month.
  destruct (month_cases m H) as [-> | [-> | [-> | [-> | [-> | [-> | [-> | [-> | [-> | [-> | [-> | ->]]]]]]]]]]];
    destruct (_is_leap y); (split; [| intro]);
    try lia; vm_compute; discriminate.
Qed.

(** Among the days of the calendar from year 1 on, only the first has
    ordinal 1. *)
Lemma toordinal_first_day (d : date) :
  calendar_date d -> 1 <= year d ->
  1 <= toordinal d /\ (toordinal d = 1 -> d = first_day).
Proof using Type.
  intros [Hm Hd] Hy. unfold toordinal, _ymd2ord.
  pose proof (days_before_year_lower (year d) Hy) as Hby.
  destruct (days_before_month_lower (year d) (month d) Hm) as [Hb0 Hb31].
  split; [lia |]. intro E.
  assert (year d = 1) by lia.
  assert (month d = 1) by lia.
  assert (day d = 1) by lia.
  destruct d as [y m dd]. cbn in *. subst. reflexivity.
Qed.

(** Every day of the calendar from year 1 on is reached from the first day
    by going to the next day, as many times as its ordinal says. *)
Lemma days_after_first_day (n : nat) :
  forall d,
    calendar_date d -> 1 <= year d ->
    toordinal d = 1 + Z.of_nat n ->
    d = days_after n first_day.
Proof using Type.
  induction n as [| n IH]; intros d Hc Hy Ho.
  - apply (toordinal_first_day d Hc Hy). cbn in Ho. lia.
  - destruct (prev_day_calendar d Hc) as [Hpc Hnext].
    pose proof (toordinal_next_day _ Hpc) as Hord. rewrite Hnext in Hord.
    assert (Hpy : 1 <= year (prev_day d)).
    { clear IH Hpc Hnext Hord. destruct d as [y m dd].
      unfold prev_day, toordinal, _ymd2ord, calendar_date in *.
      cbn [year month day] in *.
      destruct (Z.ltb_spec 1 dd); [cbn [year]; lia |].
      destruct (Z.ltb_spec 1 m); [cbn [year]; lia |].
      cbn [year]. assert (m = 1) by lia. subst m.
      rewrite days_before_january in Ho.
      destruct (Z.eq_dec y 1) as [-> | Hne]; [| lia].
      change (_days_before_year 1) with 0 in Ho. lia. }
    assert (Hpo : toordinal (prev_day d) = 1 + Z.of_nat n) by lia.
    rewrite <- Hnext. rewrite (IH (prev_day d) Hpc Hpy Hpo).
    unfold days_after. rewrite Nat.iter_succ. reflexivity.
Qed.

(** A [date] object is some number of days after the first day, and its
    weekday is that number modulo 7. *)
Lemma weekday_pinned (d : date) :
  check_date_fields d = true ->
  exists n : nat,
    d = days_after n first_day /\ weekday d = Z.of_nat n mod 7.
Proof using Type.
  intro H. pose proof (check_date_calendar d H) as Hc.
  assert (Hy : 1 <= year d).
  { unfold check_date_fields in H. bool_to_prop. lia. }
  destruct (toordinal_first_day d Hc Hy) as [Hpos _].
  exists (Z.to_nat (toordinal d - 1)).
  split.
  - apply days_after_first_day; [exact Hc | exact Hy | lia].
  - unfold weekday. rewrite Z2Nat.id by lia.
    replace (toordinal d + 6) with (toordinal d - 1 + 1 * 7) by lia.
    apply Z_mod_plus_full.
Qed.

(** C6. The features computed from the date and the hour: the month and
    day columns are the components of the date, the day of the week is
    [weekday] (Monday 0 .. Sunday 6), and the three flags are 0 or 1 with
    the rush-hour flag set exactly for the hours 7..9 and 16..19, the
    weekend flag exactly for days of the week from 5, and the night flag
    exactly for the hours from 22 and up to 5. The day of the week is
    that of the Gregorian calendar on every date a [date] object can hold:
    such a date is some number [n] of days after Monday 1 January of year
    1, counted with [next_day], and its day of the week is [n mod 7]; from
    one day to the next it moves on by one, after Sunday (6) to Monday
    (0). *)
Theorem temporal_features (w : widgets) (zip_int : Z) :
  let X := input_data w zip_int in
  Month X = month (date_time w)
  /\ Day X = day (date_time w)
  /\ Hour X = hour w
  /\ DayOfWeek X = weekday (date_time w)
  /\ 0 <= DayOfWeek X <= 6
  /\ weekday (mk_date 2024 6 17) = 0
  /\ weekday (mk_date 2024 6 15) = 5
  /\ weekday (mk_date 2024 6 16) = 6
  /\ (IsRushHour X = 1 \/ IsRushHour X = 0)
  /\ (IsRushHour X = 1 <-> 7 <= hour w <= 9 \/ 16 <= hour w <= 19)
  /\ (IsWeekend X = 1 \/ IsWeekend X = 0)
  /\ (IsWeekend X = 1 <-> DayOfWeek X >= 5)
  /\ (IsNightTime X = 1 \/ IsNightTime X = 0)
  /\ (IsNightTime X = 1 <-> hour w >= 22 \/ hour w <= 5)
  /\ (check_date_fields (date_time w) = true ->
      exists n : nat,
        date_time w = days_after n first_day
        /\ DayOfWeek X = Z.of_nat n mod 7)
  /\ (forall d : date,
        check_date_fields d = true ->
        exists n : nat,
          d = days_after n first_day /\ weekday d = Z.of_nat n mod 7)
  /\ (forall d : date,
        check_date_fields d = true ->
        weekday (next_day d) = (weekday d + 1) mod 7)
  /\ (forall n : nat, weekday (days_after n first_day) = Z.of_nat n mod 7).
Proof using Type.
  cbn zeta. cbn [input_data Month Day Hour DayOfWeek IsRushHour IsWeekend IsNightTime].
  unfold day_of_week.
  repeat match goal with |- _ /\ _ => split end; try reflexivity.
  - apply weekday_range.
  - apply weekday_range.
  - unfold is_rush_hour. case_conditions; auto.
  - unfold is_rush_hour. case_conditions; bool_cases; lia.
  - unfold is_weekend. case_conditions; auto.
  - unfold is_weekend. case_conditions; bool_cases; lia.
  - unfold is_night_time. case_conditions; auto.
  - unfold is_night_time. case_conditions; bool_cases; lia.
  - apply weekday_pinned.
  - apply weekday_pinned.
  - intros d H. apply weekday_next_day, check_date_calendar. exact H.
  - intro n. rewrite (weekday_days_after n first_day).
    + reflexivity.
    + unfold calendar_date. cbn. lia.
Qed.

(** ** The risk factors *)

Lemma str_in_high_risk (cf : string) :
  str_in cf high_risk_factors = true <->
  cf = "driver inattention/distraction" \/ cf = "unsafe speed".
Proof using Type.
  forget_unused.
  unfold str_in, high_risk_factors. cbn [existsb].
  rewrite !orb_true_iff, !String.eqb_eq. intuition discriminate.
Qed.

Lemma notes_distinct (cf : string) :
  rush_hour_note <> night_time_note
  /\ rush_hour_note <> high_risk_note cf
  /\ night_time_note <> high_risk_note cf.
Proof using Type.
  unfold rush_hour_note, night_time_note, high_risk_note.
  repeat split; simpl; discriminate.
Qed.

(** The list as a function of the three conditions. *)
Lemma risk_factors_eq (r n : Z) (cf : string) :
  risk_factors r n cf =
  ((if truthy r then [rush_hour_note] else [])
   ++ (if truthy n then [night_time_note] else [])
   ++ (if str_in cf high_risk_factors then [high_risk_note cf] else []))%list.
Proof using Type.
  unfold risk_factors, append.
  destruct (truthy r), (truthy n), (str_in cf high_risk_factors); reflexivity.
Qed.

Lemma risk_factors_members (r n : Z) (cf : string) :
  (In rush_hour_note (risk_factors r n cf) <-> r <> 0)
  /\ (In night_time_note (risk_factors r n cf) <-> n <> 0)
  /\ (In (high_risk_note cf) (risk_factors r n cf) <->
      cf = "driver inattention/distraction" \/ cf = "unsafe speed").
Proof using Type.
  forget_unused.
  pose proof (notes_distinct cf) as (D1 & D2 & D3).
  pose proof (str_in_high_risk cf) as Hcf.
  rewrite risk_factors_eq. unfold truthy.
  destruct (Z.eqb_spec r 0) as [Hr | Hr], (Z.eqb_spec n 0) as [Hn | Hn],
    (str_in cf high_risk_factors) eqn:Hin; rewrite ?Hin in Hcf;
    cbn [negb app In];
    (repeat split; intros;
     try solve [ tauto | discriminate | congruence | intuition congruence
               | exfalso; intuition discriminate ]).
Qed.

Lemma risk_factors_empty (r n : Z) (cf : string) :
  (risk_factors r n cf = [] <->
   r = 0 /\ n = 0
   /\ cf <> "driver inattention/distraction" /\ cf <> "unsafe speed")
  /\ (risk_factors_markdown (risk_factors r n cf) = no_risk_message <->
      risk_factors r n cf = []).
Proof using Type.
  forget_unused.
  pose proof (str_in_high_risk cf) as Hcf.
  rewrite risk_factors_eq. unfold truthy.
  destruct (Z.eqb_spec r 0) as [Hr | Hr], (Z.eqb_spec n 0) as [Hn | Hn],
    (str_in cf high_risk_factors) eqn:Hin; rewrite ?Hin in Hcf;
    cbn [negb app];
    (repeat split; intros;
     try solve [ tauto | discriminate | congruence | intuition congruence
               | exfalso; intuition discriminate
               | cbn in *; discriminate ]).
Qed.

(** C7. The risk-factor list holds exactly the rush-hour note when the
    rush-hour flag is set, the night-time note when the night flag is set,
    and the high-risk note when the contributing factor is one of
    "driver inattention/distraction" and "unsafe speed", in this order;
    it is empty exactly when none of the three holds, and exactly then the
    text rendered is the "no risk factors" message. *)
Theorem risk_factors_exact (r n : Z) (cf : string) :
  risk_factors r n cf =
    ((if truthy r then [rush_hour_note] else [])
     ++ (if truthy n then [night_time_note] else [])
     ++ (if str_in cf high_risk_factors then [high_risk_note cf] else []))%list
  /\ (In rush_hour_note (risk_factors r n cf) <-> r <> 0)
  /\ (In night_time_note (risk_factors r n cf) <-> n <> 0)
  /\ (In (high_risk_note cf) (risk_factors r n cf) <->
      cf = "driver inattention/distraction" \/ cf = "unsafe speed")
  /\ (risk_factors r n cf = [] <->
      r = 0 /\ n = 0
      /\ cf <> "driver inattention/distraction" /\ cf <> "unsafe speed")
  /\ (risk_factors_markdown (risk_factors r n cf) = no_risk_message <->
      risk_factors r n cf = []).
Proof using Type.
  pose proof (risk_factors_members r n cf) as (M1 & M2 & M3).
  pose proof (risk_factors_empty r n cf) as (E1 & E2).
  split; [apply risk_factors_eq |].
  repeat (split; [assumption |]). assumption.
Qed.

(** C10. No hour is both a rush hour and a night hour, so the risk-factor
    list of a prediction never holds both the rush-hour note and the
    night-time note. *)
Theorem rush_hour_excludes_night_time (hour : Z) (contributing_factor : string) :
  ~ (is_rush_hour hour = 1 /\ is_night_time hour = 1)
  /\ ~ (truthy (is_rush_hour hour) = true /\ truthy (is_night_time hour) = true)
  /\ ~ (In rush_hour_note
          (risk_factors (is_rush_hour hour) (is_night_time hour)
             contributing_factor)
        /\ In night_time_note
             (risk_factors (is_rush_hour hour) (is_night_time hour)
                contributing_factor)).
Proof using Type.
  assert (E : ~ (is_rush_hour hour = 1 /\ is_night_time hour = 1)).
  { unfold is_rush_hour, is_night_time.
    case_conditions; bool_cases; intros [? ?]; lia. }
  assert (B : forall h, is_rush_hour h <> 0 -> is_rush_hour h = 1)
    by (intro h; unfold is_rush_hour; case_conditions; lia).
  assert (B' : forall h, is_night_time h <> 0 -> is_night_time h = 1)
    by (intro h; unfold is_night_time; case_conditions; lia).
  split; [exact E | split].
  - unfold truthy. rewrite !negb_true_iff, !Z.eqb_neq.
    intros [? ?]. apply E. auto.
  - destruct (risk_factors_members (is_rush_hour hour) (is_night_time hour)
                contributing_factor) as (Hr & Hn & _).
    rewrite Hr, Hn. intros [? ?]. apply E. auto.
Qed.

(** ** The predict button *)

Lemma bind_ret {A B : Type} (a : A) (k : A -> script B) :
  bind (ret a) k = k a.
Proof using Type. unfold bind, ret. cbn. destruct (k a); reflexivity. Qed.

(** With a ZIP code that [is_valid_ny_zipcode] rejects, the handler shows
    the error and stops the script; the model is not called. *)
Lemma handler_rejected (w : widgets) (model : Model) :
  is_valid_ny_zipcode (zip_code w) = false ->
  predict_button_handler w model = ([st_error cannot_predict_message], Stop)
  /\ model_calls (fst (predict_button_handler w model)) = [].
Proof using Type.
  intro H. unfold predict_button_handler. rewrite H. split; reflexivity.
Qed.

(** With a ZIP code that [is_valid_ny_zipcode] accepts, the handler calls
    [predict] and, if that returns, [predict_proba], each once; an
    exception of either call ends in the [except] clause. *)
Lemma handler_accepted (w : widgets) (model : Model) (zip_int : Z) :
  int (zip_code w) = Some zip_int ->
  in_ny_ranges zip_int = true ->
  let X := input_data w zip_int in
  predict_button_handler w model =
  match predict model X with
  | inl e => ([model_predict X; st_error (failure_message e)], Normal tt)
  | inr prediction =>
      match predict_proba model X with
      | inl e =>
          ([model_predict X; model_predict_proba X;
            st_error (failure_message e)], Normal tt)
      | inr row =>
          (model_predict X :: model_predict_proba X
             :: fst (display_results w prediction row), Normal tt)
      end
  end.
Proof using Type.
  intros Hint Hin X.
  unfold predict_button_handler, is_valid_ny_zipcode, int_stmt.
  rewrite Hint, Hin. cbn [negb]. subst X.
  unfold call_predict, call_predict_proba.
  rewrite !bind_ret.
  destruct (predict model (input_data w zip_int)) as [e | prediction];
    [reflexivity |].
  destruct (predict_proba model (input_data w zip_int)) as [e | row];
    reflexivity.
Qed.

Lemma valid_zip_int (zipcode : string) :
  is_valid_ny_zipcode zipcode = true ->
  exists zip_int, int zipcode = Some zip_int /\ in_ny_ranges zip_int = true.
Proof using Type.
  unfold is_valid_ny_zipcode. destruct (int zipcode) as [z |];
    [eauto | discriminate].
Qed.

(** The model is called only after the ZIP code has passed
    [is_valid_ny_zipcode] in the same run. *)
Lemma model_called_only_if_valid (w : widgets) (model : Model) :
  model_calls (fst (predict_button_handler w model)) <> [] ->
  is_valid_ny_zipcode (zip_code w) = true.
Proof using Type.
  intro H. destruct (is_valid_ny_zipcode (zip_code w)) eqn:E; [reflexivity |].
  destruct (handler_rejected w model E) as [_ Hc]. contradiction.
Qed.

(** Without a press of the button nothing is shown and the model is not
    called; with a press the handler runs. *)
Lemma predict_button_cases (w : widgets) (model : Model) :
  predict_button false w model = ret tt
  /\ predict_button true w model = predict_button_handler w model.
Proof using Type. split; reflexivity. Qed.

(** C5, on the code. A ZIP code field holding "10001 " (a trailing space:
    six characters, not all digits) gets the 5-digit warning under the
    field, yet passes the check of the button handler, which calls the
    model with ZIP code 10001. The same holds for "010001". *)
Theorem predict_not_blocked_on_malformed_zip
  (d : date) (h : Z) (v c : string) (model : Model) :
  let w := mk_widgets d h v c "10001 " in
  let w' := mk_widgets d h v c "010001" in
  (isdigit (zip_code w) = false /\ len (zip_code w) = 6
   /\ zip_code_feedback (zip_code w)
      = ([st_warning "Please enter a valid 5-digit ZIP code"], Normal tt)
   /\ is_valid_ny_zipcode (zip_code w) = true
   /\ exists t o,
       predict_button_handler w model
       = (model_predict (input_data w 10001) :: t, o))
  /\ (isdigit (zip_code w') = true /\ len (zip_code w') = 6
      /\ zip_code_feedback (zip_code w')
         = ([st_warning "Please enter a valid 5-digit ZIP code"], Normal tt)
      /\ is_valid_ny_zipcode (zip_code w') = true
      /\ exists t o,
          predict_button_handler w' model
          = (model_predict (input_data w' 10001) :: t, o)).
Proof using Type.
  intros w w'.
  split; (repeat (split; [reflexivity |]));
    [ rewrite (handler_accepted w model 10001) by reflexivity
    | rewrite (handler_accepted w' model 10001) by reflexivity ];
    cbv zeta;
    match goal with
    | |- context [predict model ?X] =>
        destruct (predict model X); [eauto |];
        destruct (predict_proba model X); eauto
    end.
Qed.

(** C8. Once the ZIP code has passed the check, an exception of the
    predictor (raised by [predict], or by [predict_proba] after [predict]
    returned) is caught: the handler shows one error message built from
    the exception and ends normally, each method of the model having been
    called at most once. A later press with the same widget values and a
    predictor that answers displays the results. *)
Theorem prediction_failure_reported (w : widgets) (model : Model) (e : exn) :
  is_valid_ny_zipcode (zip_code w) = true ->
  exists zip_int,
    int (zip_code w) = Some zip_int
    /\ (predict model (input_data w zip_int) = inl e ->
        predict_button_handler w model
        = ([model_predict (input_data w zip_int);
            st_error (failure_message e)], Normal tt))
    /\ (forall prediction,
          predict model (input_data w zip_int) = inr prediction ->
          predict_proba model (input_data w zip_int) = inl e ->
          predict_button_handler w model
          = ([model_predict (input_data w zip_int);
              model_predict_proba (input_data w zip_int);
              st_error (failure_message e)], Normal tt))
    /\ (forall model' prediction row,
          predict model' (input_data w zip_int) = inr prediction ->
          predict_proba model' (input_data w zip_int) = inr row ->
          predict_button_handler w model'
          = (model_predict (input_data w zip_int)
               :: model_predict_proba (input_data w zip_int)
               :: fst (display_results w prediction row), Normal tt)).
Proof using Type.
  intro Hv. destruct (valid_zip_int _ Hv) as (zip_int & Hint & Hin).
  exists zip_int. split; [exact Hint |].
  split; [| split].
  - intro Hp. rewrite (handler_accepted w model zip_int Hint Hin).
    cbv zeta. rewrite Hp. reflexivity.
  - intros prediction Hp Hpp. rewrite (handler_accepted w model zip_int Hint Hin).
    cbv zeta. rewrite Hp, Hpp. reflexivity.
  - intros model' prediction row Hp Hpp.
    rewrite (handler_accepted w model' zip_int Hint Hin).
    cbv zeta. rewrite Hp, Hpp. reflexivity.
Qed.

(** * Further properties *)

(** ** How large an integer [int] can read from a string *)

Lemma length_transform_chars (s : string) :
  (String.length (transform_chars s) <= String.length s)%nat.
Proof using Type.
  induction s as [| c r IH]; cbn [transform_chars String.length]; [lia |].
  destruct (ord c <? 127); cbn [String.length]; [lia |].
  destruct (Py_UNICODE_ISSPACE c); cbn [String.length]; [lia |].
  destruct (Py_UNICODE_TODECIMAL c); cbn [String.length]; lia.
Qed.

Lemma length_transform (s : string) :
  len (_PyUnicode_TransformDecimalAndSpaceToASCII s) <= len s.
Proof using Type.
  unfold _PyUnicode_TransformDecimalAndSpaceToASCII, len.
  destruct (PyUnicode_IS_ASCII s); [lia |].
  pose proof (length_transform_chars s). lia.
Qed.

(** When the rewritten string consists of ASCII digits, so did the
    original, and nothing was rewritten. *)
Lemma transform_chars_digits (s : string) :
  forall_chars is_ascii_digit (transform_chars s) = true ->
  forall_chars is_ascii_digit s = true /\ transform_chars s = s.
Proof using Type.
  induction s as [| c r IH]; cbn [transform_chars forall_chars]; [auto |].
  destruct (ord c <? 127) eqn:E.
  - cbn [forall_chars]. intro H. apply andb_true_iff in H. destruct H as [Hc Hr].
    destruct (IH Hr) as [H1 H2]. rewrite Hc, H1, H2. auto.
  - destruct (Py_UNICODE_ISSPACE c); [cbn; discriminate |].
    unfold Py_UNICODE_TODECIMAL, digit_value.
    destruct (is_ascii_digit c) eqn:D; [| cbn; discriminate].
    apply is_ascii_digit_range in D. apply Z.ltb_ge in E. lia.
Qed.

Lemma transform_digits (s : string) :
  forall_chars is_ascii_digit (_PyUnicode_TransformDecimalAndSpaceToASCII s)
  = true ->
  forall_chars is_ascii_digit s = true
  /\ _PyUnicode_TransformDecimalAndSpaceToASCII s = s.
Proof using Type.
  unfold _PyUnicode_TransformDecimalAndSpaceToASCII.
  destruct (PyUnicode_IS_ASCII s); [auto | apply transform_chars_digits].
Qed.

Lemma skip_spaces_length (s : string) :
  len (skip_spaces s) <= len s
  /\ (len (skip_spaces s) = len s -> skip_spaces s = s).
Proof using Type.
  unfold len. induction s as [| c r IH]; cbn [skip_spaces];
    [split; [lia | reflexivity] |].
  destruct (Py_ISSPACE c); [| split; [lia | reflexivity]].
  cbn [String.length]. split; lia.
Qed.

Lemma len_cons (c : ascii) (r : string) : len (String c r) = len r + 1.
Proof using Type. unfold len. cbn [String.length]. lia. Qed.

Lemma len_nonneg (s : string) : 0 <= len s.
Proof using Type. unfold len. lia. Qed.

(** The scan reads [k] digits out of at most [len s] characters; the value
    it returns has the accumulator in front of [k] decimal digits; and it
    reads as many digits as there are characters only when all of them are
    digits. *)
Lemma scan_digits_bounds (s : string) :
  forall prev acc digits sc,
    0 <= acc ->
    scan_digits s prev acc digits = Some sc ->
    0 <= sc_digits sc - digits <= len s
    /\ acc * 10 ^ (sc_digits sc - digits) <= sc_value sc
       < (acc + 1) * 10 ^ (sc_digits sc - digits)
    /\ (sc_digits sc - digits = len s ->
        forall_chars is_ascii_digit s = true
        /\ sc_value sc = fold_left decimal_step (list_ascii_of_string s) acc).
Proof using Type.
  induction s as [| c r IH]; intros prev acc digits sc Hacc Hs.
  - cbn in Hs. injection Hs as <-. cbn [sc_digits sc_value].
    rewrite Z.sub_diag. cbn. repeat split; try lia. 
  - cbn [scan_digits] in Hs. rewrite len_cons. pose proof (len_nonneg r).
    destruct (is_underscore c).
    + destruct prev; [discriminate |].
      destruct (IH _ _ _ _ Hacc Hs) as (Hk & Hv & _).
      repeat split; try lia.
    + unfold digit_value in Hs. destruct (is_ascii_digit c) eqn:D.
      * pose proof (is_ascii_digit_range _ D) as Hc.
        assert (Hacc' : 0 <= 10 * acc + (ord c - 48)) by lia.
        destruct (IH _ _ _ _ Hacc' Hs) as (Hk & Hv & Hall).
        replace (sc_digits sc - digits) with (Z.succ (sc_digits sc - (digits + 1)))
          by lia.
        rewrite Z.pow_succ_r by lia.
        assert (0 < 10 ^ (sc_digits sc - (digits + 1)))
          by (apply Z.pow_pos_nonneg; lia).
        split; [lia |]. split; [nia |].
        intro E. destruct Hall as [Hd Hval]; [lia |].
        cbn [forall_chars list_ascii_of_string fold_left].
        rewrite D, Hd. split; [reflexivity | exact Hval].
      * injection Hs as <-. cbn [sc_digits sc_value].
        rewrite Z.sub_diag. cbn [Z.pow]. repeat split; try lia.
Qed.

Lemma long_from_string_base_bounds (s : string) (v : Z) :
  long_from_string_base s = Some v ->
  0 <= v < 10 ^ len s
  /\ 1 <= len s
  /\ (10 ^ (len s - 1) <= v ->
      forall_chars is_ascii_digit s = true /\ v = decimal_value s).
Proof using Type.
  unfold long_from_string_base. intro H.
  destruct (starts_with_underscore s); [discriminate |].
  destruct (scan_digits s false 0 0) as [sc |] eqn:Hs; [| discriminate].
  destruct (sc_prev_underscore sc); [discriminate |].
  destruct (sc_digits sc =? 0) eqn:Hz; [discriminate |].
  destruct (skip_spaces (sc_rest sc)); [| discriminate].
  destruct (exceeds_max_str_digits (sc_digits sc)); [discriminate |].
  injection H as <-. apply Z.eqb_neq in Hz.
  destruct (scan_digits_bounds s _ _ _ _ (Z.le_refl 0) Hs) as (Hk & Hv & Hall).
  rewrite Z.sub_0_r in *.
  assert (10 ^ sc_digits sc <= 10 ^ len s) by (apply Z.pow_le_mono_r; lia).
  split; [lia |]. split; [lia |].
  intro Hbig. apply Hall.
  destruct (Z.eq_dec (sc_digits sc) (len s)) as [| Hne]; [assumption |].
  assert (10 ^ sc_digits sc <= 10 ^ (len s - 1))
    by (apply Z.pow_le_mono_r; lia).
  lia.
Qed.

Lemma PyLong_FromString_bounds (s : string) (z : Z) :
  PyLong_FromString s = Some z ->
  - 10 ^ len s < z < 10 ^ len s
  /\ 1 <= len s
  /\ (10 ^ (len s - 1) <= z ->
      forall_chars is_ascii_digit s = true /\ z = decimal_value s).
Proof using Type.
  unfold PyLong_FromString. intro H.
  destruct (skip_spaces_length s) as [Hle Heq].
  assert (P : forall a b : Z, 0 <= a <= b -> 10 ^ a <= 10 ^ b)
    by (intros; apply Z.pow_le_mono_r; lia).
  assert (Q : forall a : Z, 0 <= a -> 0 < 10 ^ a)
    by (intros; apply Z.pow_pos_nonneg; lia).
  destruct (skip_spaces s) as [| c r] eqn:Hu.
  - apply long_from_string_base_bounds in H. unfold len in H at 2. cbn in H. lia.
  - rewrite len_cons in *. pose proof (len_nonneg r) as Hr.
    pose proof (P (len r) (len s - 1)) as P1.
    pose proof (P (len s - 1) (len s)) as P2.
    pose proof (Q (len r) Hr) as Q1.
    destruct (ord c =? 43).
    { apply long_from_string_base_bounds in H. destruct H as (Hv & _ & _).
      split; [lia |]. split; [lia |]. intro. lia. }
    destruct (ord c =? 45).
    { destruct (long_from_string_base r) as [v |] eqn:Hv; [| discriminate].
      cbn in H. injection H as <-.
      apply long_from_string_base_bounds in Hv. destruct Hv as (Hv & _ & _).
      pose proof (Q (len s - 1)).
      split; [lia |]. split; [lia |]. intro. lia. }
    apply long_from_string_base_bounds in H. rewrite len_cons in H.
    destruct H as (Hv & _ & Hall).
    pose proof (P (len r + 1) (len s)) as P3.
    split; [lia |]. split; [lia |]. intro Hbig.
    destruct (Z.eq_dec (len r + 1) (len s)) as [E | Hne].
    + rewrite <- (Heq E). apply Hall. rewrite E. replace (len s - 1 + 1 - 1) with (len s - 1) by lia.
      replace (len r + 1 - 1) with (len s - 1) by lia. exact Hbig.
    + pose proof (P (len r + 1) (len s - 1)). lia.
Qed.

(** What [int] returns has fewer decimal digits than the string has
    characters, unless the string consists of ASCII digits only and does
    not start with a zero; then it is the decimal value. *)
Lemma int_bounds (s : string) (z : Z) :
  int s = Some z ->
  - 10 ^ len s < z < 10 ^ len s
  /\ 1 <= len s
  /\ (10 ^ (len s - 1) <= z ->
      forall_chars is_ascii_digit s = true /\ z = decimal_value s).
Proof using Type.
  unfold int. intro H. apply PyLong_FromString_bounds in H.
  destruct H as (Hz & H1 & Hall).
  pose proof (length_transform s) as Hle.
  set (t := _PyUnicode_TransformDecimalAndSpaceToASCII s) in *.
  assert (10 ^ len t <= 10 ^ len s) by (apply Z.pow_le_mono_r; lia).
  split; [lia |]. split; [lia |]. intro Hbig.
  destruct (Z.eq_dec (len t) (len s)) as [E | Hne].
  - rewrite E in Hall. destruct (Hall Hbig) as [Hd Hv].
    destruct (transform_digits s Hd) as [Hs Ht]. fold t in Ht.
    rewrite Ht in Hv. auto.
  - assert (10 ^ len t <= 10 ^ (len s - 1)) by (apply Z.pow_le_mono_r; lia).
    lia.
Qed.

(** ** The ZIP-code functions on short and on decorated strings *)

Lemma out_of_range_rejected (z : Z) :
  ~ 10001 <= z <= 14925 ->
  in_ny_ranges z = false /\ region_of z = "Unknown".
Proof using Type.
  intro H. rewrite in_ny_ranges_outer, region_of_unknown by exact H.
  split; [| reflexivity]. apply andb_false_iff.
  destruct (Z_le_dec 10001 z); [right | left]; apply Z.leb_gt; lia.
Qed.

(** X1. A string of fewer than five characters is never a valid ZIP code
    and never gets a named region, whatever its characters. *)
Theorem short_strings_rejected (zipcode : string) :
  (String.length zipcode < 5)%nat ->
  is_valid_ny_zipcode zipcode = false
  /\ (get_region zipcode = "Unknown" \/ get_region zipcode = "Invalid").
Proof using Type.
  intro Hlen. unfold is_valid_ny_zipcode, get_region.
  destruct (int zipcode) as [z |] eqn:E; [| auto].
  destruct (int_bounds _ _ E) as (Hz & _ & _).
  assert (10 ^ len zipcode <= 10 ^ 4)
    by (apply Z.pow_le_mono_r; unfold len; lia).
  change (10 ^ 4) with 10000 in *.
  destruct (out_of_range_rejected z) as [H1 H2]; [lia |].
  rewrite H1, H2. auto.
Qed.

Lemma valid_iff_spec_upto_five (zipcode : string) :
  (String.length zipcode <= 5)%nat ->
  (is_valid_ny_zipcode zipcode = true <-> spec_valid_zip zipcode).
Proof using Type.
  intro Hlen. unfold spec_valid_zip. split.
  - unfold is_valid_ny_zipcode.
    destruct (int zipcode) as [z |] eqn:E; [| discriminate].
    rewrite in_ny_ranges_outer. intro H. bool_to_prop.
    destruct (int_bounds _ _ E) as (Hz & _ & Hall).
    assert (L : len zipcode = 5).
    { destruct (Z.eq_dec (len zipcode) 5) as [| Hne]; [assumption |].
      assert (10 ^ len zipcode <= 10 ^ 4)
        by (apply Z.pow_le_mono_r; unfold len in *; lia).
      change (10 ^ 4) with 10000 in *. lia. }
    rewrite L in Hall. change (10 ^ (5 - 1)) with 10000 in Hall.
    destruct Hall as [Hd Hv]; [lia |]. subst z.
    split; [| unfold in_spec_ranges; lia].
    unfold five_ascii_digits. rewrite Hd, andb_true_r.
    apply Nat.eqb_eq. unfold len in L. lia.
  - intros [H5 Hin]. unfold is_valid_ny_zipcode.
    rewrite (int_five_digits _ H5). apply in_ny_ranges_spec. exact Hin.
Qed.

Lemma is_decimal_digit_ascii (c : ascii) :
  is_decimal_digit c = is_ascii_digit c.
Proof using Type.
  unfold is_decimal_digit, Py_UNICODE_TODECIMAL, digit_value.
  destruct (is_ascii_digit c); reflexivity.
Qed.

Lemma forall_chars_ext (p q : ascii -> bool) (s : string) :
  (forall c, p c = q c) -> forall_chars p s = forall_chars q s.
Proof using Type.
  intro Hpq. induction s as [| c r IH]; cbn [forall_chars]; [reflexivity |].
  rewrite Hpq, IH. reflexivity.
Qed.

Lemma decimal_digits_fold (s : string) :
  forall_chars is_ascii_digit s = true ->
  forall acc,
    fold_left decimal_digit_step (list_ascii_of_string s) acc
    = fold_left decimal_step (list_ascii_of_string s) acc.
Proof using Type.
  induction s as [| c r IH]; cbn [forall_chars list_ascii_of_string fold_left];
    [reflexivity |].
  intros H acc. apply andb_true_iff in H. destruct H as [Hc Hr].
  rewrite (IH Hr). f_equal.
  unfold decimal_digit_step, decimal_step, Py_UNICODE_TODECIMAL, digit_value.
  rewrite Hc. reflexivity.
Qed.

(** On the strings of the model the decimal digits are the ASCII digits. *)
Lemma five_decimal_digits_spec (s : string) :
  five_decimal_digits_in_ranges s <-> spec_valid_zip s.
Proof using Type.
  unfold five_decimal_digits_in_ranges, spec_valid_zip, five_ascii_digits.
  rewrite (forall_chars_ext is_decimal_digit is_ascii_digit s
             is_decimal_digit_ascii).
  split.
  - intros (Hl & Hd & Hr). split.
    + apply andb_true_iff. split; [apply Nat.eqb_eq; exact Hl | exact Hd].
    + unfold decimal_digits_value in Hr. rewrite (decimal_digits_fold s Hd) in Hr.
      exact Hr.
  - intros [H Hr]. apply andb_true_iff in H. destruct H as [Hl Hd].
    apply Nat.eqb_eq in Hl. split; [exact Hl |]. split; [exact Hd |].
    unfold decimal_digits_value. rewrite (decimal_digits_fold s Hd). exact Hr.
Qed.

(** X2. On strings of at most five characters [is_valid_ny_zipcode]
    returns true exactly when the string consists of five decimal digits
    (characters that [int] reads as a digit) whose value lies in the union
    of the ranges. *)
Theorem five_characters_valid_iff (zipcode : string) :
  (String.length zipcode <= 5)%nat ->
  (is_valid_ny_zipcode zipcode = true <->
   five_decimal_digits_in_ranges zipcode).
Proof using Type.
  intro H. pose proof (valid_iff_spec_upto_five zipcode H) as V.
  pose proof (five_decimal_digits_spec zipcode) as D.
  split; intro G; [apply D, V, G | apply V, D, G].
Qed.

Lemma int_leading_space (c : ascii) (s : string) :
  Py_ISSPACE c = true -> int (String c s) = int s.
Proof using Type.
  intro Hc. unfold int, _PyUnicode_TransformDecimalAndSpaceToASCII.
  assert (Hord : ord c < 127).
  { unfold Py_ISSPACE in Hc. bool_cases; lia. }
  unfold PyUnicode_IS_ASCII. cbn [forall_chars transform_chars].
  replace (ord c <? 128) with true by (symmetry; apply Z.ltb_lt; lia).
  replace (ord c <? 127) with true by (symmetry; apply Z.ltb_lt; lia).
  cbn [andb].
  destruct (forall_chars (fun c0 => ord c0 <? 128) s);
    unfold PyLong_FromString; cbn [skip_spaces]; rewrite Hc; reflexivity.
Qed.

(** X3. White space in front of the string is ignored by both functions:
    each of tab, line feed, vertical tab, form feed, carriage return and
    space can be put in front without changing the answers. *)
Theorem leading_space_ignored (c : ascii) (zipcode : string) :
  Py_ISSPACE c = true ->
  is_valid_ny_zipcode (String c zipcode) = is_valid_ny_zipcode zipcode
  /\ get_region (String c zipcode) = get_region zipcode.
Proof using Type.
  intro Hc. unfold is_valid_ny_zipcode, get_region.
  rewrite (int_leading_space c zipcode Hc). split; reflexivity.
Qed.

Lemma space_is_no_digit (c : ascii) :
  Py_ISSPACE c = true ->
  is_underscore c = false /\ digit_value c = None /\ ord c < 127.
Proof using Type.
  unfold Py_ISSPACE, is_underscore, digit_value, is_ascii_digit. intro H.
  assert (9 <= ord c <= 13 \/ ord c = 32) by (bool_cases; lia).
  replace (ord c =? 95) with false by (symmetry; apply Z.eqb_neq; lia).
  replace (48 <=? ord c) with false by (symmetry; apply Z.leb_gt; lia).
  repeat split. lia.
Qed.

Lemma scan_digits_app_space (c : ascii) (s : string) :
  Py_ISSPACE c = true ->
  forall prev acc digits,
    scan_digits (s ++ String c EmptyString) prev acc digits =
    option_map
      (fun sc => mk_scanned (sc_value sc) (sc_digits sc)
                   (sc_prev_underscore sc)
                   (sc_rest sc ++ String c EmptyString))
      (scan_digits s prev acc digits).
Proof using Type.
  intro Hc. destruct (space_is_no_digit c Hc) as (Hu & Hd & _).
  induction s as [| a r IH]; intros prev acc digits.
  - cbn. rewrite Hu, Hd. reflexivity.
  - cbn [String.append scan_digits].
    destruct (is_underscore a).
    + destruct prev; [reflexivity | apply IH].
    + destruct (digit_value a); [apply IH | reflexivity].
Qed.

Lemma skip_spaces_app_space (c : ascii) (s : string) :
  Py_ISSPACE c = true ->
  skip_spaces (s ++ String c EmptyString) =
  match skip_spaces s with
  | EmptyString => EmptyString
  | String a r => String a (r ++ String c EmptyString)
  end.
Proof using Type.
  intro Hc. induction s as [| a r IH].
  - cbn. rewrite Hc. reflexivity.
  - cbn [String.append skip_spaces]. destruct (Py_ISSPACE a); [exact IH |].
    reflexivity.
Qed.

Lemma long_from_string_base_app_space (c : ascii) (s : string) :
  Py_ISSPACE c = true ->
  long_from_string_base (s ++ String c EmptyString) = long_from_string_base s.
Proof using Type.
  intro Hc. destruct (space_is_no_digit c Hc) as (Hu & _ & _).
  unfold long_from_string_base.
  rewrite (scan_digits_app_space c s Hc).
  assert (E : starts_with_underscore (s ++ String c EmptyString)
              = starts_with_underscore s).
  { destruct s; cbn; [exact Hu | reflexivity]. }
  rewrite E. destruct (starts_with_underscore s); [reflexivity |].
  destruct (scan_digits s false 0 0) as [sc |]; [| reflexivity].
  cbn [option_map sc_prev_underscore sc_digits sc_rest sc_value].
  destruct (sc_prev_underscore sc); [reflexivity |].
  destruct (sc_digits sc =? 0); [reflexivity |].
  rewrite (skip_spaces_app_space c (sc_rest sc) Hc).
  destruct (skip_spaces (sc_rest sc)); reflexivity.
Qed.

Lemma PyLong_FromString_app_space (c : ascii) (s : string) :
  Py_ISSPACE c = true ->
  PyLong_FromString (s ++ String c EmptyString) = PyLong_FromString s.
Proof using Type.
  intro Hc. unfold PyLong_FromString.
  rewrite (skip_spaces_app_space c s Hc).
  destruct (skip_spaces s) as [| a r]; [reflexivity |].
  rewrite (long_from_string_base_app_space c r Hc).
  change (String a (r ++ String c EmptyString))
    with (String a r ++ String c EmptyString).
  rewrite (long_from_string_base_app_space c (String a r) Hc).
  reflexivity.
Qed.

Lemma is_ascii_app_space (c : ascii) (s : string) :
  Py_ISSPACE c = true ->
  PyUnicode_IS_ASCII (s ++ String c EmptyString) = PyUnicode_IS_ASCII s.
Proof using Type.
  intro Hc. destruct (space_is_no_digit c Hc) as (_ & _ & Ho).
  unfold PyUnicode_IS_ASCII. induction s as [| a r IH].
  - cbn. replace (ord c <? 128) with true by (symmetry; apply Z.ltb_lt; lia).
    reflexivity.
  - cbn [String.append forall_chars]. rewrite IH. reflexivity.
Qed.

(** X4. White space after an ASCII string is ignored by both functions,
    so that "10001 " is as valid as "10001". *)
Theorem trailing_space_ignored (c : ascii) (zipcode : string) :
  Py_ISSPACE c = true ->
  PyUnicode_IS_ASCII zipcode = true ->
  is_valid_ny_zipcode (zipcode ++ String c EmptyString)
  = is_valid_ny_zipcode zipcode
  /\ get_region (zipcode ++ String c EmptyString) = get_region zipcode.
Proof using Type.
  intros Hc Ha.
  assert (E : int (zipcode ++ String c EmptyString) = int zipcode).
  { unfold int, _PyUnicode_TransformDecimalAndSpaceToASCII.
    rewrite (is_ascii_app_space c zipcode Hc), Ha.
    apply PyLong_FromString_app_space. exact Hc. }
  unfold is_valid_ny_zipcode, get_region. rewrite E. split; reflexivity.
Qed.

Lemma decimal_value_leading_zero (s : string) :
  decimal_value (String "0"%char s) = decimal_value s.
Proof using Type. reflexivity. Qed.

(** X5. A zero in front of a string of ASCII digits changes neither
    answer (for strings of fewer than 640 digits, which the interpreter's
    limit does not concern). *)
Theorem leading_zero_ignored (zipcode : string) :
  zipcode <> EmptyString ->
  forall_chars is_ascii_digit zipcode = true ->
  len zipcode < 640 ->
  is_valid_ny_zipcode (String "0"%char zipcode) = is_valid_ny_zipcode zipcode
  /\ get_region (String "0"%char zipcode) = get_region zipcode.
Proof using Type.
  intros Hne Hd Hlen. unfold is_valid_ny_zipcode, get_region.
  rewrite (int_digits zipcode Hne Hd).
  rewrite (int_digits (String "0"%char zipcode)); [| discriminate |].
  - rewrite len_cons, !exceeds_small by lia.
    rewrite decimal_value_leading_zero. split; reflexivity.
  - cbn [forall_chars]. rewrite Hd. reflexivity.
Qed.

Lemma int_minus (r : string) (z : Z) :
  int (String "-"%char r) = Some z -> z <= 0.
Proof using Type.
  unfold int, _PyUnicode_TransformDecimalAndSpaceToASCII.
  assert (H : forall t, PyLong_FromString (String "-"%char t) = Some z -> z <= 0).
  { intros t. unfold PyLong_FromString. cbn [skip_spaces].
    change (Py_ISSPACE "-"%char) with false. cbn match.
    change (ord "-"%char =? 43) with false.
    change (ord "-"%char =? 45) with true. cbn match.
    destruct (long_from_string_base t) as [v |] eqn:E; [| discriminate].
    cbn. intro Hz. injection Hz as <-.
    apply long_from_string_base_bounds in E. lia. }
  destruct (PyUnicode_IS_ASCII (String "-"%char r)); [apply H |].
  cbn [transform_chars]. change (ord "-"%char <? 127) with true. cbn match.
  apply H.
Qed.

(** X6. A string that starts with a minus sign is never a valid ZIP code
    and never gets a named region. *)
Theorem minus_sign_rejected (r : string) :
  is_valid_ny_zipcode (String "-"%char r) = false
  /\ (get_region (String "-"%char r) = "Unknown"
      \/ get_region (String "-"%char r) = "Invalid").
Proof using Type.
  unfold is_valid_ny_zipcode, get_region.
  destruct (int (String "-"%char r)) as [z |] eqn:E; [| auto].
  apply int_minus in E.
  destruct (out_of_range_rejected z) as [H1 H2]; [lia |].
  rewrite H1, H2. auto.
Qed.

Lemma region_of_reachable (z : Z) : In (region_of z) reachable_regions.
Proof using Type.
  unfold region_of, reachable_regions.
  case_conditions; bool_to_prop; cbn [In]; auto 10; lia.
Qed.

(** X7. "Brooklyn, NYC" is never returned: its range 11201..11256 lies
    inside the Queens range 11001..11697, which is tested first. The
    regions [get_region] returns are exactly the seven of
    [reachable_regions]: every result is one of them and each of them is
    the result for some string. *)
Theorem get_region_reachable :
  (forall zipcode, get_region zipcode <> "Brooklyn, NYC")
  /\ (forall zipcode, In (get_region zipcode) reachable_regions)
  /\ (forall region, In region reachable_regions ->
      exists zipcode, get_region zipcode = region)
  /\ (forall z, 11201 <= z <= 11256 -> region_of z = "Queens, NYC").
Proof using Type.
  assert (R : forall zipcode, In (get_region zipcode) reachable_regions).
  { intro zipcode. unfold get_region. destruct (int zipcode) as [z |].
    - apply region_of_reachable.
    - unfold reachable_regions. cbn [In]. auto 10. }
  split; [| split; [exact R | split]].
  - intros zipcode E. specialize (R zipcode). rewrite E in R.
    unfold reachable_regions in R. cbn [In] in R.
    repeat destruct R as [R | R]; try discriminate R. exact R.
  - unfold reachable_regions. cbn [In]. intros region H.
    repeat destruct H as [H | H]; subst;
      [ exists "10001" | exists "10301" | exists "10451" | exists "11001"
      | exists "12000" | exists "99999" | exists "abcde" | contradiction ];
      reflexivity.
  - intros z Hz. unfold region_of.
    case_conditions; bool_to_prop; try reflexivity; lia.
Qed.

(** ** The feedback under the ZIP code field *)

Lemma forall_chars_impl (p q : ascii -> bool) (s : string) :
  (forall c, p c = true -> q c = true) ->
  forall_chars p s = true -> forall_chars q s = true.
Proof using Type.
  intro Hpq. induction s as [| c r IH]; cbn [forall_chars]; [auto |].
  intro H. apply andb_true_iff in H. destruct H as [Hc Hr].
  rewrite (Hpq c Hc), (IH Hr). reflexivity.
Qed.

Lemma five_ascii_digits_isdigit (s : string) :
  five_ascii_digits s = true -> isdigit s = true /\ len s = 5.
Proof using Type.
  intro H. apply five_ascii_digits_inv in H. destruct H as [Hlen Hd].
  split; [| unfold len; lia].
  unfold isdigit. destruct s; [discriminate |].
  apply (forall_chars_impl is_ascii_digit); [| exact Hd].
  intros c Hc. unfold Py_UNICODE_ISDIGIT. rewrite Hc. reflexivity.
Qed.

Lemma emit_eq (c c' : call) : emit c = emit c' <-> c = c'.
Proof using Type.
  unfold emit. split; [intro H; injection H; auto | intros ->; reflexivity].
Qed.

(** X8. The feedback under the ZIP code field is one message: the success
    message exactly when the field holds five decimal digits (characters
    that [int] reads as a digit) whose value lies in the ranges, the
    5-digit warning exactly when [isdigit()] fails or the length is not 5,
    and the not-in-New-York error in the remaining case. *)
Theorem zip_code_feedback_cases (zip_code : string) :
  (zip_code_feedback zip_code
   = emit (st_success "Valid New York State ZIP code.")
   <-> five_decimal_digits_in_ranges zip_code)
  /\ (zip_code_feedback zip_code
      = emit (st_warning "Please enter a valid 5-digit ZIP code")
      <-> isdigit zip_code = false \/ len zip_code <> 5)
  /\ (zip_code_feedback zip_code
      = emit (st_error "This ZIP code is not in New York State. Please enter a valid NY ZIP code.")
      <-> isdigit zip_code = true /\ len zip_code = 5
          /\ ~ five_decimal_digits_in_ranges zip_code).
Proof using Type.
  forget_unused.
  pose proof (five_decimal_digits_spec zip_code) as D.
  revert D. generalize (five_decimal_digits_in_ranges zip_code).
  intros P D.
  assert (S : spec_valid_zip zip_code ->
              isdigit zip_code = true /\ len zip_code = 5)
    by (intros [H _]; apply five_ascii_digits_isdigit; exact H).
  unfold zip_code_feedback.
  destruct (isdigit zip_code) eqn:Hd; cbn [negb orb].
  - destruct (len zip_code =? 5) eqn:Hl; cbn [negb]; bool_to_prop.
    + pose proof (valid_iff_spec_upto_five zip_code) as V.
      assert (L : (String.length zip_code <= 5)%nat) by (unfold len in Hl; lia).
      specialize (V L).
      destruct (is_valid_ny_zipcode zip_code); cbn [negb]; cbv zeta;
        rewrite !emit_eq; intuition (try discriminate; try congruence).
    + rewrite !emit_eq. intuition (try discriminate; try congruence).
  - rewrite !emit_eq. intuition (try discriminate; try congruence).
Qed.

(** X9. When the field shows the success message, a press of the button
    is not blocked: the handler calls [predict] first, with a frame whose
    ZIP code is the decimal value of the field, a number of the range
    10001..14925. *)
Theorem valid_feedback_then_predict (w : widgets) (model : Model) :
  zip_code_feedback (zip_code w)
  = emit (st_success "Valid New York State ZIP code.") ->
  10001 <= decimal_value (zip_code w) <= 14925
  /\ exists t o,
      predict_button_handler w model
      = (model_predict (input_data w (decimal_value (zip_code w))) :: t, o).
Proof using Type.
  intro H.
  assert (V : spec_valid_zip (zip_code w)).
  { generalize H. unfold zip_code_feedback.
    destruct (negb (isdigit (zip_code w)) || negb (len (zip_code w) =? 5)) eqn:G;
      [intro H'; apply emit_eq in H'; discriminate |].
    bool_to_prop.
    destruct (is_valid_ny_zipcode (zip_code w)) eqn:Hv; cbn [negb];
      [| intro H'; apply emit_eq in H'; discriminate].
    intros _. apply valid_iff_spec_upto_five; [unfold len in *; lia | exact Hv]. }
  destruct V as [H5 Hin].
  pose proof (int_five_digits _ H5) as Hint.
  pose proof (proj2 (in_ny_ranges_spec _) Hin) as Hr.
  split; [rewrite in_ny_ranges_outer in Hr; bool_to_prop; lia |].
  rewrite (handler_accepted w model _ Hint Hr). cbv zeta.
  destruct (predict model _); [eauto |].
  destruct (predict_proba model _); eauto.
Qed.

(** ** The handler of the predict button, in every run *)

(** The four ways a press can go. *)
Lemma handler_cases (w : widgets) (model : Model) :
  (is_valid_ny_zipcode (zip_code w) = false
   /\ predict_button_handler w model
      = ([st_error cannot_predict_message], Stop))
  \/ exists zip_int,
      int (zip_code w) = Some zip_int
      /\ 10001 <= zip_int <= 14925
      /\ ((exists e,
             predict model (input_data w zip_int) = inl e
             /\ predict_button_handler w model
                = ([model_predict (input_data w zip_int);
                    st_error (failure_message e)], Normal tt))
          \/ (exists prediction e,
                predict model (input_data w zip_int) = inr prediction
                /\ predict_proba model (input_data w zip_int) = inl e
                /\ predict_button_handler w model
                   = ([model_predict (input_data w zip_int);
                       model_predict_proba (input_data w zip_int);
                       st_error (failure_message e)], Normal tt))
          \/ (exists prediction row,
                predict model (input_data w zip_int) = inr prediction
                /\ predict_proba model (input_data w zip_int) = inr row
                /\ predict_button_handler w model
                   = (model_predict (input_data w zip_int)
                        :: model_predict_proba (input_data w zip_int)
                        :: fst (display_results w prediction row),
                      Normal tt))).
Proof using Type.
  destruct (is_valid_ny_zipcode (zip_code w)) eqn:Hv.
  - right. destruct (valid_zip_int _ Hv) as (z & Hint & Hin).
    exists z. split; [exact Hint |].
    split; [rewrite in_ny_ranges_outer in Hin; bool_to_prop; lia |].
    rewrite (handler_accepted w model z Hint Hin). cbv zeta.
    destruct (predict model (input_data w z)) as [e | prediction];
      [left; eauto |].
    destruct (predict_proba model (input_data w z)) as [e | row];
      right; [left | right]; eauto.
  - left. split; [reflexivity | apply handler_rejected; exact Hv].
Qed.

(** X10. No exception leaves the handler: a press ends normally or with
    [st.stop()], and it ends with [st.stop()] exactly when
    [is_valid_ny_zipcode] rejects the ZIP code. *)
Theorem handler_outcome (w : widgets) (model : Model) :
  (snd (predict_button_handler w model) = Normal tt
   \/ snd (predict_button_handler w model) = Stop)
  /\ (snd (predict_button_handler w model) = Stop <->
      is_valid_ny_zipcode (zip_code w) = false).
Proof using Type.
  destruct (handler_cases w model) as [[Hv ->] | (z & Hint & Hz & H)].
  - cbn [snd]. split; [right; reflexivity | split; auto].
  - assert (Hv : is_valid_ny_zipcode (zip_code w) = true).
    { unfold is_valid_ny_zipcode. rewrite Hint, in_ny_ranges_outer.
      apply andb_true_iff. split; apply Z.leb_le; lia. }
    rewrite Hv.
    destruct H as [(e & _ & ->) | [(p & e & _ & _ & ->) | (p & row & _ & _ & ->)]];
      cbn [snd]; (split; [left; reflexivity | split; discriminate]).
Qed.

(** X11. In one press [predict] is called at most once and
    [predict_proba] at most once, [predict_proba] only after [predict] has
    returned, and both with the same frame; no call is made when the ZIP
    code is rejected. *)
Theorem handler_model_calls (w : widgets) (model : Model) :
  (is_valid_ny_zipcode (zip_code w) = false
   /\ model_calls (fst (predict_button_handler w model)) = [])
  \/ exists zip_int,
      int (zip_code w) = Some zip_int
      /\ ((exists e,
             predict model (input_data w zip_int) = inl e
             /\ model_calls (fst (predict_button_handler w model))
                = [model_predict (input_data w zip_int)])
          \/ (exists prediction,
                predict model (input_data w zip_int) = inr prediction
                /\ model_calls (fst (predict_button_handler w model))
                   = [model_predict (input_data w zip_int);
                      model_predict_proba (input_data w zip_int)])).
Proof using Type.
  destruct (handler_cases w model) as [[Hv ->] | (z & Hint & Hz & H)].
  - left. split; [exact Hv | reflexivity].
  - right. exists z. split; [exact Hint |].
    destruct H as [(e & Hp & ->) | [(p & e & Hp & _ & ->) | (p & row & Hp & _ & ->)]];
      [left; exists e | right; exists p | right; exists p];
      (split; [exact Hp | reflexivity]).
Qed.

(** X12. Every frame the model is called with comes from this run's
    widgets and a ZIP code that passed the check: its ZIP code is the
    integer read from the field and lies in 10001..14925, its hour, vehicle
    type and contributing factor are the widgets' values, its three flags
    are 0 or 1 and its day of the week is in 0..6. *)
Theorem model_frame_invariant (w : widgets) (model : Model) (X : DataFrame) :
  In (model_predict X) (fst (predict_button_handler w model))
  \/ In (model_predict_proba X) (fst (predict_button_handler w model)) ->
  int (zip_code w) = Some (ZIP_CODE X)
  /\ 10001 <= ZIP_CODE X <= 14925
  /\ X = input_data w (ZIP_CODE X)
  /\ Hour X = hour w
  /\ VEHICLE_TYPE_CODE_2 X = vehicle_type w
  /\ CONTRIBUTING_FACTOR_VEHICLE_1 X = contributing_factor w
  /\ (IsRushHour X = 0 \/ IsRushHour X = 1)
  /\ (IsWeekend X = 0 \/ IsWeekend X = 1)
  /\ (IsNightTime X = 0 \/ IsNightTime X = 1)
  /\ 0 <= DayOfWeek X <= 6.
Proof using Type.
  intro HIn.
  assert (E : exists z, int (zip_code w) = Some z /\ 10001 <= z <= 14925
                        /\ X = input_data w z).
  { destruct (handler_cases w model) as [[Hv Hh] | (z & Hint & Hz & H)].
    - rewrite Hh in HIn. cbn in HIn.
      destruct HIn as [[H | []] | [H | []]]; discriminate H.
    - exists z. split; [exact Hint |]. split; [exact Hz |].
      destruct H as [(e & _ & Hh) | [(p & e & _ & _ & Hh) | (p & row & _ & _ & Hh)]];
        rewrite Hh in HIn; cbn in HIn;
        repeat match goal with
          | H : _ \/ _ |- _ => destruct H
          | H : False |- _ => destruct H
          | H : model_predict _ = model_predict _ |- _ =>
              injection H as H; symmetry; exact H
          | H : model_predict_proba _ = model_predict_proba _ |- _ =>
              injection H as H; symmetry; exact H
          | H : _ = _ |- _ => discriminate H
          end. }
  destruct E as (z & Hint & Hz & ->).
  cbn [input_data ZIP_CODE Hour VEHICLE_TYPE_CODE_2 CONTRIBUTING_FACTOR_VEHICLE_1
         IsRushHour IsWeekend IsNightTime DayOfWeek].
  repeat split; try assumption; try lia; try reflexivity.
  - unfold is_rush_hour. case_conditions; auto.
  - unfold is_weekend. case_conditions; auto.
  - unfold is_night_time. case_conditions; auto.
  - apply weekday_range.
  - apply weekday_range.
Qed.

(** X13. A press shows either the results or an error, never both: the
    results appear exactly when the ZIP code passes the check and both
    calls of the model return, and otherwise exactly one error message is
    shown. *)
Theorem results_or_error (w : widgets) (model : Model) :
  let t := fst (predict_button_handler w model) in
  (In (st_header "Prediction Results") t <->
   exists zip_int prediction row,
     int (zip_code w) = Some zip_int
     /\ 10001 <= zip_int <= 14925
     /\ predict model (input_data w zip_int) = inr prediction
     /\ predict_proba model (input_data w zip_int) = inr row)
  /\ (In (st_header "Prediction Results") t ->
      forall body, ~ In (st_error body) t)
  /\ (~ In (st_header "Prediction Results") t ->
      exists body, filter
                     (fun c => match c with st_error _ => true | _ => false end)
                     t = [st_error body]).
Proof using Type.
  cbv zeta.
  destruct (handler_cases w model) as [[Hv Hh] | (z & Hint & Hz & H)].
  - rewrite Hh. cbn [fst]. split; [| split].
    + split.
      * cbn. intros [H | []]. discriminate H.
      * intros (z & p & row & Hint & Hz & _). exfalso.
        unfold is_valid_ny_zipcode in Hv. rewrite Hint, in_ny_ranges_outer in Hv.
        bool_to_prop. lia.
    + cbn. intros [H | []]. discriminate H.
    + intros _. eexists. reflexivity.
  - destruct H as [(e & Hp & Hh) | [(p & e & Hp & Hpp & Hh) | (p & row & Hp & Hpp & Hh)]];
      rewrite Hh; cbn [fst].
    + split; [| split].
      * split.
        -- cbn. intros [H | [H | []]]; discriminate H.
        -- intros (z' & p & row & Hint' & _ & Hp' & _). exfalso.
           rewrite Hint in Hint'. injection Hint' as <-. congruence.
      * cbn. intros [H | [H | []]]; discriminate H.
      * intros _. eexists. reflexivity.
    + split; [| split].
      * split.
        -- cbn. intros [H | [H | [H | []]]]; discriminate H.
        -- intros (z' & p' & row & Hint' & _ & _ & Hpp'). exfalso.
           rewrite Hint in Hint'. injection Hint' as <-. congruence.
      * cbn. intros [H | [H | [H | []]]]; discriminate H.
      * intros _. eexists. reflexivity.
    + split; [| split].
      * split; [intros _; exists z, p, row; auto |].
        intros _. cbn. auto.
      * intros _ body. cbn.
        intros H; repeat destruct H as [H | H]; try discriminate H; exact H.
      * intro H. exfalso. apply H. cbn. auto.
Qed.

(** X14. For flags computed from one hour the risk-factor list holds at
    most two notes (no hour is both a rush hour and a night hour); the
    note of the hour, if any, comes first and the high-risk note, if any,
    last. *)
Theorem risk_factors_at_most_two (hour : Z) (contributing_factor : string) :
  let l := risk_factors (is_rush_hour hour) (is_night_time hour)
             contributing_factor in
  (List.length l <= 2)%nat
  /\ (In (high_risk_note contributing_factor) l ->
      last l EmptyString = high_risk_note contributing_factor)
  /\ (In rush_hour_note l -> hd EmptyString l = rush_hour_note)
  /\ (In night_time_note l -> hd EmptyString l = night_time_note).
Proof using Type.
  cbv zeta. pose proof (notes_distinct contributing_factor) as (D1 & D2 & D3).
  rewrite risk_factors_eq.
  unfold is_rush_hour, is_night_time.
  destruct (((7 <=? hour) && (hour <=? 9)) || ((16 <=? hour) && (hour <=? 19)))
    eqn:R;
    destruct ((hour >=? 22) || (hour <=? 5)) eqn:N;
    [exfalso; bool_cases; lia | | |];
    change (truthy 1) with true; change (truthy 0) with false;
    destruct (str_in contributing_factor high_risk_factors);
    cbn [app List.length last hd In];
    (split; [lia |]); repeat split; intros H;
    repeat destruct H as [H | H]; try reflexivity; try contradiction;
    try congruence.
Qed.

(** ** The whole script *)

Lemma zip_code_feedback_messages (zip_code : string) :
  exists body,
    zip_code_feedback zip_code = ([st_warning body], Normal tt)
    \/ zip_code_feedback zip_code = ([st_error body], Normal tt)
    \/ zip_code_feedback zip_code = ([st_success body], Normal tt).
Proof using Type.
  unfold zip_code_feedback, emit.
  destruct (negb (isdigit zip_code) || negb (len zip_code =? 5)); [eauto |].
  destruct (negb (is_valid_ny_zipcode zip_code)); eauto.
Qed.

Lemma zip_code_feedback_one_call (zip_code : string) :
  exists c,
    zip_code_feedback zip_code = ([c], Normal tt)
    /\ is_model_call c = false
    /\ match c with st_markdown _ => False | _ => True end.
Proof using Type.
  destruct (zip_code_feedback_messages zip_code) as [body [H | [H | H]]];
    rewrite H; eexists; (split; [reflexivity | split; [reflexivity | exact I]]).
Qed.

Lemma tab2_eq (heatmap : exn + string) :
  tab2 heatmap
  = ([st_title heatmap_title; widget (st_markdown heatmap_intro);
      read_file "ev_heatmap.html"; heatmap_result heatmap], Normal tt).
Proof using Type. destruct heatmap; reflexivity. Qed.

Lemma app_py_loaded (model : Model) (w : widgets) (pressed : bool)
  (heatmap : exn + string) :
  app_py (inr model) w pressed heatmap =
  match snd (predict_button pressed w model) with
  | Normal _ =>
      ((before_footer w pressed model ++ footer_calls
        ++ fst (tab2 heatmap))%list, Normal tt)
  | Raise e => (before_footer w pressed model, Raise e)
  | Stop => (before_footer w pressed model, Stop)
  end.
Proof using Type.
  unfold before_footer. rewrite tab2_eq.
  unfold app_py, tab1. rewrite tab2_eq.
  destruct (zip_code_feedback_one_call (zip_code w)) as (c & Hc & _).
  cbn [load_model_block page_try_except page_bind page_emit page_ret].
  rewrite Hc.
  destruct (predict_button pressed w model) as [t [[] | e |]];
    cbn; rewrite <- ?app_assoc; reflexivity.
Qed.

Lemma predict_button_outcome (pressed : bool) (w : widgets) (model : Model) :
  (snd (predict_button pressed w model) = Stop
   /\ pressed = true /\ is_valid_ny_zipcode (zip_code w) = false)
  \/ (snd (predict_button pressed w model) = Normal tt
      /\ (pressed = false \/ is_valid_ny_zipcode (zip_code w) = true)).
Proof using Type.
  destruct pressed; cbn [predict_button]; [| right; auto].
  destruct (handler_cases w model) as [[Hv ->] | (z & Hint & Hz & H)];
    [left; auto |].
  assert (Hv : is_valid_ny_zipcode (zip_code w) = true).
  { unfold is_valid_ny_zipcode. rewrite Hint, in_ny_ranges_outer.
    apply andb_true_iff. split; apply Z.leb_le; lia. }
  right. split; [| auto].
  destruct H as [(e & _ & ->) | [(p & e & _ & _ & ->) | (p & row & _ & _ & ->)]];
    reflexivity.
Qed.

(** X15. When loading the model fails, the run shows the page head and the
    error with the exception's text and stops: no widget of the form, no
    button, no footer and nothing of the heatmap tab is rendered, whatever
    the widgets would return. *)
Theorem model_load_failure (e : exn) (w : widgets) (pressed : bool)
  (heatmap : exn + string) :
  app_py (inl e) w pressed heatmap
  = ((page_head ++ [widget (st_error ("Error loading model: " ++ str e))])%list,
     Stop)
  /\ forallb (fun c => negb (is_heatmap_call c))
       (fst (app_py (inl e) w pressed heatmap)) = true
  /\ filter is_page_model_call (fst (app_py (inl e) w pressed heatmap)) = [].
Proof using Type. repeat split. Qed.

(** X16. A press with a ZIP code that [is_valid_ny_zipcode] rejects stops
    the whole script at the error message: the footer of the first tab and
    the heatmap tab are not rendered in that run, and the model is not
    called. *)
Theorem rejected_press_stops_page (model : Model) (w : widgets)
  (heatmap : exn + string) :
  is_valid_ny_zipcode (zip_code w) = false ->
  app_py (inr model) w true heatmap
  = ((page_head ++ form_calls
      ++ map widget (fst (zip_code_feedback (zip_code w)))
      ++ [st_button "Predict Accident Severity";
          widget (st_error cannot_predict_message)])%list, Stop)
  /\ forallb (fun c => negb (is_heatmap_call c))
       (fst (app_py (inr model) w true heatmap)) = true
  /\ filter is_page_model_call (fst (app_py (inr model) w true heatmap)) = []
  /\ existsb (fun c => match c with
                       | widget (st_markdown body) =>
                           String.eqb body about_the_model
                       | _ => false
                       end)
       (fst (app_py (inr model) w true heatmap)) = false.
Proof using Type.
  intro Hv. rewrite app_py_loaded. unfold before_footer.
  cbn [predict_button]. destruct (handler_rejected w model Hv) as [-> _].
  cbn [snd fst map].
  destruct (zip_code_feedback_one_call (zip_code w)) as (c & -> & Hm & Hc).
  cbn [fst map]. split; [reflexivity |].
  destruct c; try contradiction; try discriminate Hm; repeat split.
Qed.

(** X17. A run that is not stopped renders the whole page: when the button
    is not pressed or the ZIP code passes the check, the output of the
    handler is followed by the footer and the heatmap tab, and the run ends
    normally, also when the predictor raised or the heatmap file could not
    be read; in the latter case the last call is the error with the
    exception's text. *)
Theorem unstopped_run_renders_page (model : Model) (w : widgets)
  (pressed : bool) (heatmap : exn + string) :
  pressed = false \/ is_valid_ny_zipcode (zip_code w) = true ->
  app_py (inr model) w pressed heatmap
  = ((page_head ++ form_calls
      ++ map widget (fst (zip_code_feedback (zip_code w)))
      ++ st_button "Predict Accident Severity"
         :: map widget (fst (predict_button pressed w model))
      ++ footer_calls
      ++ [st_title heatmap_title; widget (st_markdown heatmap_intro);
          read_file "ev_heatmap.html"; heatmap_result heatmap])%list,
     Normal tt).
Proof using Type.
  intro H. rewrite app_py_loaded, tab2_eq. unfold before_footer.
  destruct (predict_button_outcome pressed w model) as [(_ & Hp & Hv) | [-> _]].
  - destruct H as [H | H]; congruence.
  - cbn [fst]. f_equal. rewrite <- !app_assoc. reflexivity.
Qed.

(** X18. Without a press of the button the model is not called: a run with
    the button not pressed holds no call of [predict] or [predict_proba],
    whether the model was loaded or not. *)
Theorem no_press_no_model_call (loaded : exn + Model) (w : widgets)
  (heatmap : exn + string) :
  filter is_page_model_call (fst (app_py loaded w false heatmap)) = [].
Proof using Type.
  destruct loaded as [e | model]; [reflexivity |].
  rewrite app_py_loaded, tab2_eq. unfold before_footer.
  cbn [predict_button ret snd fst map].
  destruct (zip_code_feedback_one_call (zip_code w)) as (c & Hc & Hm & _).
  rewrite Hc. cbn [fst map]. destruct heatmap; cbn; rewrite Hm; reflexivity.
Qed.

(** X19. No exception leaves the script: a run ends normally or with
    [st.stop()], and it is stopped exactly when loading the model failed or
    the button was pressed with a ZIP code that [is_valid_ny_zipcode]
    rejects. *)
Theorem app_py_outcome (loaded : exn + Model) (w : widgets) (pressed : bool)
  (heatmap : exn + string) :
  (snd (app_py loaded w pressed heatmap) = Normal tt
   \/ snd (app_py loaded w pressed heatmap) = Stop)
  /\ (snd (app_py loaded w pressed heatmap) = Stop <->
      (exists e, loaded = inl e)
      \/ (pressed = true /\ is_valid_ny_zipcode (zip_code w) = false)).
Proof using Type.
  destruct loaded as [e | model].
  - split; [right; reflexivity |]. split; [eauto | reflexivity].
  - rewrite app_py_loaded.
    destruct (predict_button_outcome pressed w model)
      as [(-> & Hp & Hv) | [-> H]]; cbn [snd].
    + split; [right; reflexivity |]. split; auto.
    + split; [left; reflexivity |]. split; [discriminate |].
      intros [[e He] | [Hp Hv]]; [discriminate |].
      destruct H as [H | H]; congruence.
Qed.

End Script.

End Interpreter.

Arguments Normal {exn A} a.
Arguments Raise {exn A} e.
Arguments Stop {exn A}.
Arguments mk_Model {exn float} predict predict_proba.
Arguments predict {exn float} m X.
Arguments predict_proba {exn float} m X.
Arguments ret {exn A} a.
Arguments bind {exn A B} m k.
Arguments emit {exn} c.
Arguments raise {exn A} e.
Arguments st_stop {exn A}.
Arguments try_except {exn A} body handler.
Arguments call_predict {exn float} model X.
Arguments call_predict_proba {exn float} model X.
Arguments int_stmt max_str_digits {exn} int_ValueError s.
Arguments zip_code_feedback max_str_digits {exn} zip_code.
Arguments display_results {exn float} format_percent w prediction prediction_proba.
Arguments failure_message {exn} str e.
Arguments predict_button_handler max_str_digits {exn} str int_ValueError {float}
  format_percent w model.
Arguments predict_button max_str_digits {exn} str int_ValueError {float}
  format_percent pressed w model.

Arguments page_ret {exn A} a.
Arguments page_bind {exn A B} m k.
Arguments page_emit {exn} c.
Arguments page_raise {exn A} e.
Arguments page_stop {exn A}.
Arguments page_try_except {exn A} body handler.
Arguments widgets_of {exn A} m.
Arguments load_model_block {exn} str {float} loaded.
Arguments tab1 max_str_digits {exn} str int_ValueError {float} format_percent
  loaded w pressed.
Arguments tab2 {exn} str heatmap.
Arguments app_py max_str_digits {exn} str int_ValueError {float} format_percent
  loaded w pressed heatmap.
Arguments heatmap_result {exn} str heatmap.
Arguments before_footer max_str_digits {exn} str int_ValueError {float}
  format_percent w pressed model.
Arguments failing_model {exn float} e.
Arguments working_model {exn float} prediction row.

(** * Concrete runs

    The runs use the default limit of 4300 digits; an exception is given
    by its message and a probability by its rendering as a percentage. *)

(** [int] on sample strings, as CPython evaluates them. *)
Lemma int_examples :
  map (int DEFAULT_MAX_STR_DIGITS)
    ["10001"; "010001"; " 10001"; "10001 "; "+10001"; "-10001"; "1_0001";
     "_10001"; "10001_"; "1__0001"; ""; "  "; "+"; "+ 1"; "1 0001"; "--1";
     "-0"; "1a001"; "123"]
  = [Some 10001; Some 10001; Some 10001; Some 10001; Some 10001;
     Some (-10001); Some 10001; None; None; None; None; None; None; None;
     None; None; Some 0; None; Some 123].
Proof. reflexivity. Qed.

(** C2, as stated, fails on "010001": six characters, accepted. *)
Lemma six_digit_zip_is_accepted :
  is_valid_ny_zipcode DEFAULT_MAX_STR_DIGITS "010001" = true
  /\ ~ spec_valid_zip "010001".
Proof.
  split; [reflexivity |]. intros [H _]. discriminate H.
Qed.

Lemma is_valid_ny_zipcode_iff_witness :
  five_ascii_digits "10001" = true
  /\ (is_valid_ny_zipcode DEFAULT_MAX_STR_DIGITS "10001" = true <->
      spec_valid_zip "10001").
Proof.
  split; [reflexivity |].
  apply (proj2 (is_valid_ny_zipcode_iff DEFAULT_MAX_STR_DIGITS "10001")).
  reflexivity.
Defined.

(** C4, as stated, fails on "123" (three digits: "Unknown", not
    "Invalid") and on "010001" (six digits: accepted). *)
Lemma wrong_length_zip_is_not_invalid :
  (spec_malformed_zip DEFAULT_MAX_STR_DIGITS "123"
   /\ get_region DEFAULT_MAX_STR_DIGITS "123" = "Unknown"
   /\ get_region DEFAULT_MAX_STR_DIGITS "123" <> "Invalid")
  /\ (spec_malformed_zip DEFAULT_MAX_STR_DIGITS "010001"
      /\ is_valid_ny_zipcode DEFAULT_MAX_STR_DIGITS "010001" = true
      /\ get_region DEFAULT_MAX_STR_DIGITS "010001" = "Manhattan, NYC").
Proof.
  split; (split; [right; reflexivity |]); repeat split; discriminate.
Qed.

Lemma malformed_zip_results_witness :
  (int DEFAULT_MAX_STR_DIGITS "1a001" = None
   /\ is_valid_ny_zipcode DEFAULT_MAX_STR_DIGITS "1a001" = false
   /\ get_region DEFAULT_MAX_STR_DIGITS "1a001" = "Invalid")
  /\ (int DEFAULT_MAX_STR_DIGITS "123456" = Some 123456
      /\ get_region DEFAULT_MAX_STR_DIGITS "123456" <> "Invalid")
  /\ (is_valid_ny_zipcode DEFAULT_MAX_STR_DIGITS "123456" = false
      /\ get_region DEFAULT_MAX_STR_DIGITS "123456" = "Unknown").
Proof.
  pose proof (malformed_zip_results DEFAULT_MAX_STR_DIGITS "1a001") as (H1 & _).
  pose proof (malformed_zip_results DEFAULT_MAX_STR_DIGITS "123456")
    as (_ & H2 & H3).
  split; [| split].
  - split; [reflexivity | apply H1; reflexivity].
  - split; [reflexivity | apply (H2 123456); reflexivity].
  - apply (H3 "1"%char "23456"); [reflexivity | reflexivity | | ];
      vm_compute; discriminate.
Defined.

Lemma temporal_features_witness :
  check_date_fields (mk_date 2024 12 31) = true
  /\ (exists n : nat,
        mk_date 2024 12 31 = days_after n first_day
        /\ weekday (mk_date 2024 12 31) = Z.of_nat n mod 7)
  /\ weekday (mk_date 2025 1 1) = (weekday (mk_date 2024 12 31) + 1) mod 7.
Proof.
  destruct (temporal_features (saturday_morning "10001") 10001)
    as (_ & _ & _ & _ & _ & _ & _ & _ & _ & _ & _ & _ & _ & _ & _ & Hpin
        & Hnext & _).
  split; [reflexivity |]. split.
  - apply Hpin. reflexivity.
  - apply (Hnext (mk_date 2024 12 31)). reflexivity.
Defined.

Lemma get_region_image_witness :
  13001 <= 13500 <= 13901
  /\ 10001 <= 13500 <= 14925 /\ In (region_of 13500) nyc_regions.
Proof.
  split; [lia |].
  apply (proj2 (proj2 (get_region_image DEFAULT_MAX_STR_DIGITS "13500"))).
  lia.
Defined.

Lemma prediction_failure_reported_witness :
  is_valid_ny_zipcode DEFAULT_MAX_STR_DIGITS
    (zip_code (saturday_morning "10001")) = true
  /\ predict_button_handler DEFAULT_MAX_STR_DIGITS (fun e => e) (fun s => s)
       (fun p => p) (saturday_morning "10001")
       (failing_model "missing feature")
     = ([model_predict (input_data (saturday_morning "10001") 10001);
         st_error "Error making prediction: missing feature"],
        Normal tt)
  /\ fst (predict_button_handler DEFAULT_MAX_STR_DIGITS (fun e => e)
            (fun s => s) (fun p => p) (saturday_morning "10001")
            (working_model 1 ("40.00%", "60.00%")))
     = [model_predict (input_data (saturday_morning "10001") 10001);
        model_predict_proba (input_data (saturday_morning "10001") 10001);
        st_header "Prediction Results";
        st_columns 2;
        st_metric "Prediction" "Casualty Likely";
        st_metric "Probability" "60.00%";
        st_markdown "### Risk Factors";
        st_markdown
          (String.concat newline
             ["- Accident occurs during rush hour";
              "- High-risk contributing factor: unsafe speed"])].
Proof.
  split; [reflexivity |].
  destruct (prediction_failure_reported DEFAULT_MAX_STR_DIGITS string
              (fun e => e) (fun s => s) string (fun p => p)
              (saturday_morning "10001") (failing_model "missing feature")
              "missing feature" eq_refl)
    as (zip_int & Hint & Hraise & _ & Hagain).
  assert (E : zip_int = 10001) by (vm_compute in Hint; congruence).
  subst zip_int. split.
  - apply Hraise. reflexivity.
  - rewrite (Hagain (working_model 1 ("40.00%", "60.00%")) 1
               ("40.00%", "60.00%")); reflexivity.
Defined.

(** ** Runs for the further properties *)

Lemma short_strings_rejected_witness :
  (String.length "9999" < 5)%nat
  /\ is_valid_ny_zipcode DEFAULT_MAX_STR_DIGITS "9999" = false
  /\ (get_region DEFAULT_MAX_STR_DIGITS "9999" = "Unknown"
      \/ get_region DEFAULT_MAX_STR_DIGITS "9999" = "Invalid").
Proof.
  assert (H : (String.length "9999" < 5)%nat) by (cbn; lia).
  split; [exact H |].
  exact (short_strings_rejected DEFAULT_MAX_STR_DIGITS "9999" H).
Defined.

Lemma five_characters_valid_iff_witness :
  (String.length "14925" <= 5)%nat
  /\ (is_valid_ny_zipcode DEFAULT_MAX_STR_DIGITS "14925" = true <->
      five_decimal_digits_in_ranges "14925").
Proof.
  assert (H : (String.length "14925" <= 5)%nat) by (cbn; lia).
  split; [exact H |].
  exact (five_characters_valid_iff DEFAULT_MAX_STR_DIGITS "14925" H).
Defined.

Lemma leading_space_ignored_witness :
  Py_ISSPACE " "%char = true
  /\ is_valid_ny_zipcode DEFAULT_MAX_STR_DIGITS " 10001"
     = is_valid_ny_zipcode DEFAULT_MAX_STR_DIGITS "10001"
  /\ get_region DEFAULT_MAX_STR_DIGITS " 10001"
     = get_region DEFAULT_MAX_STR_DIGITS "10001".
Proof.
  split; [reflexivity |].
  apply (leading_space_ignored DEFAULT_MAX_STR_DIGITS " "%char "10001").
  reflexivity.
Defined.

Lemma trailing_space_ignored_witness :
  Py_ISSPACE " "%char = true
  /\ PyUnicode_IS_ASCII "10001" = true
  /\ is_valid_ny_zipcode DEFAULT_MAX_STR_DIGITS ("10001" ++ " ")
     = is_valid_ny_zipcode DEFAULT_MAX_STR_DIGITS "10001"
  /\ get_region DEFAULT_MAX_STR_DIGITS ("10001" ++ " ")
     = get_region DEFAULT_MAX_STR_DIGITS "10001".
Proof.
  split; [reflexivity |]. split; [reflexivity |].
  apply (trailing_space_ignored DEFAULT_MAX_STR_DIGITS " "%char "10001");
    reflexivity.
Defined.

Lemma leading_zero_ignored_witness :
  "10001" <> EmptyString
  /\ forall_chars is_ascii_digit "10001" = true
  /\ len "10001" < 640
  /\ is_valid_ny_zipcode DEFAULT_MAX_STR_DIGITS "010001"
     = is_valid_ny_zipcode DEFAULT_MAX_STR_DIGITS "10001"
  /\ get_region DEFAULT_MAX_STR_DIGITS "010001"
     = get_region DEFAULT_MAX_STR_DIGITS "10001".
Proof.
  assert (H1 : "10001" <> EmptyString) by discriminate.
  assert (H3 : len "10001" < 640) by (cbn; lia).
  split; [exact H1 |]. split; [reflexivity |]. split; [exact H3 |].
  exact (leading_zero_ignored DEFAULT_MAX_STR_DIGITS "10001" H1 eq_refl H3).
Defined.

Lemma valid_feedback_then_predict_witness :
  zip_code_feedback DEFAULT_MAX_STR_DIGITS (exn := string)
    (zip_code (saturday_morning "10001"))
  = emit (st_success "Valid New York State ZIP code.")
  /\ 10001 <= decimal_value "10001" <= 14925
  /\ exists t o,
      predict_button_handler DEFAULT_MAX_STR_DIGITS (fun e => e) (fun s => s)
        (fun p => p) (saturday_morning "10001")
        (failing_model "missing feature")
      = (model_predict
           (input_data (saturday_morning "10001") (decimal_value "10001"))
           :: t, o).
Proof.
  split; [reflexivity |].
  apply (valid_feedback_then_predict DEFAULT_MAX_STR_DIGITS string
           (fun e => e) (fun s => s) string (fun p => p)
           (saturday_morning "10001") (failing_model "missing feature")).
  reflexivity.
Defined.

Lemma model_frame_invariant_witness :
  In (model_predict (input_data (saturday_morning "10001") 10001))
    (fst (predict_button_handler DEFAULT_MAX_STR_DIGITS (fun e => e)
            (fun s => s) (fun p => p) (saturday_morning "10001")
            (working_model 1 ("40.00%", "60.00%"))))
  /\ int DEFAULT_MAX_STR_DIGITS "10001" = Some 10001
  /\ 10001 <= 10001 <= 14925.
Proof.
  assert (H : In (model_predict (input_data (saturday_morning "10001") 10001))
                (fst (predict_button_handler DEFAULT_MAX_STR_DIGITS
                        (fun e => e) (fun s => s) (fun p => p)
                        (saturday_morning "10001")
                        (working_model 1 ("40.00%", "60.00%")))))
    by (left; reflexivity).
  split; [exact H |].
  destruct (model_frame_invariant DEFAULT_MAX_STR_DIGITS string (fun e => e)
              (fun s => s) string (fun p => p) (saturday_morning "10001")
              (working_model 1 ("40.00%", "60.00%"))
              (input_data (saturday_morning "10001") 10001) (or_introl H))
    as (H1 & H2 & _).
  split; [exact H1 | exact H2].
Defined.

Lemma rejected_press_stops_page_witness :
  is_valid_ny_zipcode DEFAULT_MAX_STR_DIGITS
    (zip_code (saturday_morning "90210")) = false
  /\ app_py DEFAULT_MAX_STR_DIGITS (fun e => e) (fun s => s) (fun p => p)
       (inr (working_model 1 ("40.00%", "60.00%")))
       (saturday_morning "90210") true (inr "<html></html>")
     = ((page_head ++ form_calls
         ++ [widget (st_error "This ZIP code is not in New York State. Please enter a valid NY ZIP code.");
             st_button "Predict Accident Severity";
             widget (st_error cannot_predict_message)])%list, Stop).
Proof.
  split; [reflexivity |].
  apply (rejected_press_stops_page DEFAULT_MAX_STR_DIGITS string (fun e => e)
           (fun s => s) string (fun p => p)
           (working_model 1 ("40.00%", "60.00%"))
           (saturday_morning "90210") (inr "<html></html>")).
  reflexivity.
Defined.

Lemma unstopped_run_renders_page_witness :
  (true = false
   \/ is_valid_ny_zipcode DEFAULT_MAX_STR_DIGITS
        (zip_code (saturday_morning "10001")) = true)
  /\ app_py DEFAULT_MAX_STR_DIGITS (fun e => e) (fun s => s) (fun p => p)
       (inr (failing_model "missing feature"))
       (saturday_morning "10001") true (inl "No such file")
     = ((page_head ++ form_calls
         ++ [widget (st_success "Valid New York State ZIP code.");
             st_button "Predict Accident Severity";
             widget (model_predict
                       (input_data (saturday_morning "10001") 10001));
             widget (st_error "Error making prediction: missing feature")]
         ++ footer_calls
         ++ [st_title heatmap_title; widget (st_markdown heatmap_intro);
             read_file "ev_heatmap.html";
             widget (st_error "Error loading heatmap: No such file")])%list,
        Normal tt).
Proof.
  assert (H : true = false
              \/ is_valid_ny_zipcode DEFAULT_MAX_STR_DIGITS
                   (zip_code (saturday_morning "10001")) = true)
    by (right; reflexivity).
  split; [exact H |].
  exact (unstopped_run_renders_page DEFAULT_MAX_STR_DIGITS string (fun e => e)
           (fun s => s) string (fun p => p)
           (failing_model "missing feature")
           (saturday_morning "10001") true (inl "No such file") H).
Defined.
